(** * Backtester: a shallow embedding of [src/backtest.py]

    The development follows [Backtester.load_tickers] and
    [Backtester.run_backtest] line by line.  Prices are IEEE 754 binary64
    numbers, as pandas and numpy hold them (dtype [float64]), with the
    arithmetic of the standard library's [SpecFloat]; a missing observation
    is the value NaN.  The parts of pandas the two methods call ([dropna],
    [ffill], [bfill], frame arithmetic, [mean]) are written out on
    column-major tables.  A run is a function of what the world answers (the
    file, the clock, the provider) to the events it produces (what is
    printed, requested and plotted) and the way it ends. *)

From Stdlib Require Import ZArith List String Bool Lia Permutation.
From Stdlib Require Import Floats.SpecFloat.
Import ListNotations.

Local Open Scope string_scope.
Local Open Scope list_scope.

(** ** Binary64 arithmetic *)

Module F64.

Definition prec : Z := 53.
Definition emax : Z := 1024.

Definition t := spec_float.

Definition nan : t := S754_nan.
Definition zero : t := S754_zero false.

Definition add : t -> t -> t := SFadd prec emax.
Definition sub : t -> t -> t := SFsub prec emax.
Definition mul : t -> t -> t := SFmul prec emax.
Definition div : t -> t -> t := SFdiv prec emax.
Definition abs : t -> t := SFabs.

(** The float nearest to an integer ([float(n)] in Python). *)
Definition of_Z (z : Z) : t := binary_normalize prec emax z 0 false.
Definition of_nat (n : nat) : t := of_Z (Z.of_nat n).

Definition one : t := of_Z 1.
Definition hundred : t := of_Z 100.

(** [x > y]; false as soon as one side is NaN. *)
Definition gtb (x y : t) : bool := SFltb y x.
Definition eqb (x y : t) : bool := SFeqb x y.

Definition is_nan (x : t) : bool :=
  match x with S754_nan => true | _ => false end.



(** A finite number different from [+0] and [-0]. *)
Definition is_finite_nonzero (x : t) : bool :=
  match x with S754_finite _ _ _ => true | _ => false end.


End F64.

Definition cell : Type := F64.t.

(** ** Tables *)

(** A pandas [Series]: the values of one column, one per row of the index. *)
Definition series := list cell.

(** A pandas [DataFrame] in column order.  [L] is the type of the column
    labels: a field name for a flat table, a pair (price field, symbol) for
    a two-level one, a symbol once the price field has been selected. *)
Record frame (L : Type) : Type := mkFrame {
  nrows : nat;
  cols : list (L * series)
}.
Arguments mkFrame {L} _ _.
Arguments nrows {L} _.
Arguments cols {L} _.

Definition columns {L} (df : frame L) : list L := map fst (cols df).

(** Every column holds one value per row. *)
Definition rectangular {L} (df : frame L) : Prop :=
  Forall (fun c => List.length (snd c) = nrows df) (cols df).

(** [df.empty]: some axis has length zero. *)
Definition empty {L} (df : frame L) : bool :=
  (nrows df =? 0)%nat || match cols df with [] => true | _ => false end.

Definition mem (s : string) (l : list string) : bool :=
  existsb (String.eqb s) l.

(** [df[label]] for a frame with symbol labels: the first column so named. *)
Fixpoint lookup (s : string) (cs : list (string * series)) : option series :=
  match cs with
  | [] => None
  | (l, c) :: r => if String.eqb s l then Some c else lookup s r
  end.

(** ** DataCleaner: [dropna(axis=1, how='all')], [ffill], [bfill] *)

Definition all_missing (c : series) : bool := forallb F64.is_nan c.

Definition dropna_all {L} (df : frame L) : frame L :=
  mkFrame (nrows df) (filter (fun c => negb (all_missing (snd c))) (cols df)).

(** Forward fill, carrying the last valid observation [last]. *)
Fixpoint ffill_from (last : option cell) (c : series) : series :=
  match c with
  | [] => []
  | x :: r =>
      if F64.is_nan x
      then match last with
           | Some v => v :: ffill_from last r
           | None => x :: ffill_from last r
           end
      else x :: ffill_from (Some x) r
  end.

Definition ffill_col (c : series) : series := ffill_from None c.

(** Backward fill: the next valid observation, that is a forward fill of
    the column read from its end. *)
Definition bfill_col (c : series) : series := rev (ffill_col (rev c)).

Definition map_cols {L} (f : series -> series) (df : frame L) : frame L :=
  mkFrame (nrows df) (map (fun c => (fst c, f (snd c))) (cols df)).

Definition ffill {L} : frame L -> frame L := map_cols ffill_col.
Definition bfill {L} : frame L -> frame L := map_cols bfill_col.

(** Lines 80 and 84 of [run_backtest]. *)
Definition clean {L} (data : frame L) : frame L :=
  bfill (ffill (dropna_all data)).

(** ** Normalizer: [(data / data.iloc[0]) * 100] *)

Definition normalize_col (c : series) : series :=
  match c with
  | [] => []
  | first :: _ => map (fun p => F64.mul (F64.div p first) F64.hundred) c
  end.

(** [data.iloc[0]] raises [IndexError] on a frame without rows; the
    division itself never raises on floats. *)
Definition normalize {L} (data : frame L) : option (frame L) :=
  if (nrows data =? 0)%nat then None else Some (map_cols normalize_col data).

(** ** StrategySimulator: [normalized_data[valid_tickers].mean(axis=1)] *)

(** [df[labels]] with a list of labels: the named columns, in the order of
    the list and as often as the list names them; [KeyError] ([None]) when a
    label is not a column. *)
Fixpoint getitems (labels : list string) (cs : list (string * series))
  : option (list series) :=
  match labels with
  | [] => Some []
  | t :: r =>
      match lookup t cs, getitems r cs with
      | Some c, Some sel => Some (c :: sel)
      | _, _ => None
      end
  end.

Definition count_valid (row : list cell) : nat :=
  List.length (filter (fun v => negb (F64.is_nan v)) row).

Definition fill_zero (v : cell) : cell :=
  if F64.is_nan v then F64.zero else v.

Definition sum (row : list cell) : cell := fold_left F64.add row F64.zero.

(** pandas' mean of one row with [skipna=True] ([nanops.nanmean]): missing
    values are replaced by zero and summed, and the sum is divided by the
    number of values that are not missing; a row of missing values only has
    mean NaN.  The sum is accumulated from left to right. *)
Definition nanmean (row : list cell) : cell :=
  match count_valid row with
  | O => F64.nan
  | S _ as count => F64.div (sum (map fill_zero row)) (F64.of_nat count)
  end.

Definition row_at (i : nat) (cs : list series) : list cell :=
  map (fun c => nth i c F64.nan) cs.

Definition mean_axis1 (n : nat) (cs : list series) : series :=
  map (fun i => nanmean (row_at i cs)) (seq 0 n).

(** [s.iloc[-1]]; [IndexError] ([None]) on an empty series. *)
Definition iloc_last (s : series) : option cell :=
  match rev s with
  | [] => None
  | x :: _ => Some x
  end.

(** ** The world of one run: file, clock, provider, console, chart *)

Inductive csv_result :=
  | FileNotFound
  | Csv (df : list (string * list string)).

(** What [yf.download] hands back: columns that are field names (flat), or
    pairs of a price field and a symbol (two-level). *)
Inductive raw_table :=
  | Flat (df : frame string)
  | Layered (df : frame (string * string)).

Inductive fetch_result :=
  | FetchRaises
  | Fetched (data_raw : raw_table).

Record world := mkWorld {
  read_csv : string -> csv_result;
  (** the window computed from [datetime.now()] and the number of years *)
  window : nat -> string * string;
  yf_download : list string -> string -> string -> fetch_result
}.

Inductive message :=
  | ErrNoTickerColumn                  (* line 21 *)
  | ErrFileNotFound                    (* line 24 *)
  | WarnNoTickers                      (* line 29 *)
  | Banner (years : nat)               (* line 32 *)
  | TestingOn (first : list string)    (* line 33 *)
  | ErrDownload                        (* line 45 *)
  | ErrNoData                          (* line 49 *)
  | NoteUsingClose                     (* lines 62, 69 *)
  | ErrNoPriceField                    (* line 73 *)
  | ErrNormalization                   (* line 90 *)
  | ErrNoValidData                     (* line 99 *)
  | WarnBenchmarkMissing               (* line 108 *)
  | ResultsHeader                      (* line 113 *)
  | Timeframe (start_date end_date : string)   (* line 114 *)
  | StrategyReturn (r : cell)          (* line 115 *)
  | BenchmarkReturn (r : cell)         (* line 119 *)
  | Success (diff : cell)              (* line 123 *)
  | Underperformance (lag : cell)      (* line 125 *)
  | ChartSaved (path : string).        (* line 142 *)

Inductive plot_label := StrategyLine | BenchmarkLine.

Inductive event :=
  | Print (m : message)
  | Download (tickers : list string) (start_date end_date : string)
  | PlotLine (l : plot_label) (s : series)
  | SaveFig (path : string).

Inductive exn := ValueError | KeyError | IndexError.

Inductive outcome :=
  | Returned
  | Raised (e : exn).

Definition trace := list event.

(** ** TickerListLoader *)

Fixpoint csv_column (name : string) (df : list (string * list string))
  : option (list string) :=
  match df with
  | [] => None
  | (l, c) :: r => if String.eqb name l then Some c else csv_column name r
  end.

Definition load_tickers (w : world) (buy_list_path : string)
  : trace * list string :=
  match read_csv w buy_list_path with
  | Csv df =>
      match csv_column "ticker" df with
      | Some c => ([], c)
      | None =>
          match csv_column "Ticker" df with
          | Some c => ([], c)
          | None => ([Print ErrNoTickerColumn], [])
          end
      end
  | FileNotFound => ([Print ErrFileNotFound], [])
  end.

Record Backtester := mkBacktester {
  buy_list_path : string;
  years : nat;
  tickers : list string
}.

(** [Backtester.__init__] *)
Definition init (w : world) (path : string) (years : nat)
  : trace * Backtester :=
  let '(out, ts) := load_tickers w path in
  (out, mkBacktester path years ts).

(** ** PriceFieldSelector (lines 52 to 77) *)

Definition raw_empty (data_raw : raw_table) : bool :=
  match data_raw with
  | Flat df => empty df
  | Layered df => empty df
  end.

(** The labels the two membership tests look at: the column names of a flat
    table, [columns.get_level_values(0)] of a two-level one. *)
Definition fields (data_raw : raw_table) : list string :=
  match data_raw with
  | Flat df => columns df
  | Layered df => map fst (columns df)
  end.

Definition find_target_col (data_raw : raw_table) : trace * option string :=
  match data_raw with
  | Layered df =>
      if mem "Adj Close" (map fst (columns df)) then ([], Some "Adj Close")
      else if mem "Close" (map fst (columns df))
           then ([Print NoteUsingClose], Some "Close")
           else ([], None)
  | Flat df =>
      if mem "Adj Close" (columns df) then ([], Some "Adj Close")
      else if mem "Close" (columns df)
           then ([Print NoteUsingClose], Some "Close")
           else ([], None)
  end.

(** [data_raw[target_col]]: a frame with one column per symbol for a
    two-level table, a single series for a flat one. *)
Inductive selection :=
  | SelFrame (data : frame string)
  | SelSeries (s : option series).

Definition cross_section (target : string) (df : frame (string * string))
  : frame string :=
  mkFrame (nrows df)
    (flat_map (fun c => if String.eqb (fst (fst c)) target
                        then [(snd (fst c), snd c)] else [])
              (cols df)).

Definition getitem (data_raw : raw_table) (target : string) : selection :=
  match data_raw with
  | Layered df => SelFrame (cross_section target df)
  | Flat df => SelSeries (lookup target (cols df))
  end.

(** ** BenchmarkComparator and Reporter *)

Definition benchmark : string := "^NSEI".

Definition output_file : string := "reports/backtest_results.png".

(** Lines 121 to 125. *)
Definition verdict (strategy_return benchmark_return : cell) : message :=
  let diff := F64.sub strategy_return benchmark_return in
  if F64.gtb strategy_return benchmark_return
  then Success diff
  else Underperformance (F64.abs diff).

(** Lines 127 to 142; the title, the axis labels, the legend and the grid
    are left out. *)
Definition plot (strategy_col : series) (benchmark_col : option series)
  : trace :=
  [PlotLine StrategyLine strategy_col]
  ++ match benchmark_col with
     | Some b => [PlotLine BenchmarkLine b]
     | None => []
     end
  ++ [SaveFig output_file; Print (ChartSaved output_file)].

Definition is_nil {A} (l : list A) : bool :=
  match l with [] => true | _ => false end.

(** Lines 110 to 142: the final returns, the printed results, the chart. *)
Definition report (start_date end_date : string)
    (strategy_col : series) (benchmark_col : option series)
  : trace * outcome :=
  match iloc_last strategy_col with
  | None => ([], Raised IndexError)
  | Some last_value =>
  let strategy_return := F64.sub last_value F64.hundred in
  let results := [Print ResultsHeader;
                  Print (Timeframe start_date end_date);
                  Print (StrategyReturn strategy_return)] in
  match benchmark_col with
  | None => (results ++ plot strategy_col None, Returned)
  | Some b =>
  match iloc_last b with
  | None => (results, Raised IndexError)
  | Some last_benchmark =>
  let benchmark_return := F64.sub last_benchmark F64.hundred in
  (results ++ [Print (BenchmarkReturn benchmark_return);
               Print (verdict strategy_return benchmark_return)]
           ++ plot strategy_col (Some b), Returned)
  end end end.

(** ** [Backtester.run_backtest] *)

(** Lines 27 to 108, handing over to [report] for lines 110 to 142. *)
Definition run_backtest (w : world) (self : Backtester) : trace * outcome :=
  if is_nil (tickers self) then ([Print WarnNoTickers], Returned) else
  let t0 := [Print (Banner (years self));
             Print (TestingOn (firstn 5 (tickers self)))] in
  let '(start_date, end_date) := window w (years self) in
  let tickers_with_benchmark := tickers self ++ [benchmark] in
  let t1 := t0 ++ [Download tickers_with_benchmark start_date end_date] in
  match yf_download w tickers_with_benchmark start_date end_date with
  | FetchRaises => (t1 ++ [Print ErrDownload], Returned)
  | Fetched data_raw =>
  if raw_empty data_raw then (t1 ++ [Print ErrNoData], Returned) else
  let '(notes, target_col) := find_target_col data_raw in
  let t2 := t1 ++ notes in
  match target_col with
  | None => (t2 ++ [Print ErrNoPriceField], Returned)
  | Some target_col =>
  match getitem data_raw target_col with
  | SelSeries _ =>
      (* [Series.dropna(axis=1, ...)]: no axis named 1 *)
      (t2, Raised ValueError)
  | SelFrame data =>
  let data := dropna_all data in
  let data := bfill (ffill data) in
  match normalize data with
  | None => (t2 ++ [Print ErrNormalization], Returned)
  | Some normalized_data =>
  let valid_tickers :=
    filter (fun t => mem t (columns data)) (tickers self) in
  if is_nil valid_tickers then (t2 ++ [Print ErrNoValidData], Returned) else
  match getitems valid_tickers (cols normalized_data) with
  | None => (t2, Raised KeyError)
  | Some selected =>
  let strategy_col := mean_axis1 (nrows normalized_data) selected in
  let benchmark_col := lookup benchmark (cols normalized_data) in
  let t3 := t2 ++ match benchmark_col with
                  | Some _ => []
                  | None => [Print WarnBenchmarkMissing]
                  end in
  let '(out, res) := report start_date end_date strategy_col benchmark_col in
  (t3 ++ out, res)
  end end end end end.

(** The script at the bottom of the file: build the [Backtester], run it. *)
Definition main (w : world) (path : string) (years : nat) : trace * outcome :=
  let '(out0, bt) := init w path years in
  let '(out1, res) := run_backtest w bt in
  (out0 ++ out1, res).

(** ** Vocabulary of the properties *)

(** The provider's answer to the one request of the run. *)
Definition fetched (w : world) (self : Backtester) : fetch_result :=
  yf_download w (tickers self ++ [benchmark])
    (fst (window w (years self))) (snd (window w (years self))).

(** What a run has printed and requested once the download is issued. *)
Definition header (w : world) (self : Backtester) : trace :=
  [Print (Banner (years self));
   Print (TestingOn (firstn 5 (tickers self)));
   Download (tickers self ++ [benchmark])
     (fst (window w (years self))) (snd (window w (years self)))].

(** The candidates that are columns of the cleaned table (line 96). *)
Definition valid_tickers (self : Backtester) (data : frame string)
  : list string :=
  filter (fun t => mem t (columns data)) (tickers self).

Definition column_of (t : string) (df : frame string) : series :=
  match lookup t (cols df) with
  | Some c => c
  | None => []
  end.

(** Line 102, on the tables of a run. *)
Definition strategy_series (self : Backtester)
    (data normalized_data : frame string) : series :=
  mean_axis1 (nrows normalized_data)
    (map (fun t => column_of t normalized_data) (valid_tickers self data)).

Definition benchmark_warning (normalized_data : frame string) : trace :=
  match lookup benchmark (cols normalized_data) with
  | Some _ => []
  | None => [Print WarnBenchmarkMissing]
  end.

(** The normalized value of symbol [t] on row [i] of the cleaned table, and
    the row of these values over the valid candidates. *)
Definition normalized_value (data : frame string) (t : string) (i : nat)
  : cell :=
  nth i (normalize_col (column_of t data)) F64.nan.

Definition normalized_row (self : Backtester) (data : frame string) (i : nat)
  : list cell :=
  map (fun t => normalized_value data t i) (valid_tickers self data).

(** The arithmetic mean of a list of numbers: their sum over their count. *)
Definition arithmetic_mean (l : list cell) : cell :=
  F64.div (sum l) (F64.of_nat (List.length l)).

(** No chart and no report: nothing plotted, nothing saved, none of the
    result lines printed. *)
Definition is_artifact (e : event) : bool :=
  match e with
  | PlotLine _ _ | SaveFig _ => true
  | Print ResultsHeader | Print (Timeframe _ _)
  | Print (StrategyReturn _) | Print (BenchmarkReturn _)
  | Print (Success _) | Print (Underperformance _)
  | Print (ChartSaved _) => true
  | _ => false
  end.

Definition no_artifact (t : trace) : Prop :=
  forallb (fun e => negb (is_artifact e)) t = true.

Definition is_download (e : event) : bool :=
  match e with Download _ _ _ => true | _ => false end.

Definition no_download (t : trace) : Prop :=
  forallb (fun e => negb (is_download e)) t = true.

(** A value that is not missing. *)
Definition present (v : cell) : Prop := F64.is_nan v = false.

(** The column starts on a real, non-zero price: a finite binary64 number
    other than [+0] and [-0]. *)
Definition starts_on_price (c : series) : bool :=
  match c with
  | first :: _ => F64.is_finite_nonzero first
  | [] => false
  end.

(** Two tables of the same shape whose columns agree except, possibly, on
    the values under the benchmark symbol. *)
Definition same_but_benchmark {L} (symbol : L -> string) (d1 d2 : frame L)
  : Prop :=
  nrows d1 = nrows d2
  /\ Forall2 (fun c1 c2 => fst c1 = fst c2
                           /\ (symbol (fst c1) <> benchmark -> snd c1 = snd c2))
             (cols d1) (cols d2).

Definition differ_only_in_benchmark (r1 r2 : raw_table) : Prop :=
  match r1, r2 with
  | Layered d1, Layered d2 => same_but_benchmark snd d1 d2
  | Flat d1, Flat d2 => same_but_benchmark (fun l => l) d1 d2
  | _, _ => False
  end.

Definition raw_rectangular (r : raw_table) : Prop :=
  match r with
  | Flat d => rectangular d
  | Layered d => rectangular d
  end.

(** The columns of the candidates: all but the benchmark's. *)
Definition off_benchmark (cs : list (string * series))
  : list (string * series) :=
  filter (fun c => negb (String.eqb (fst c) benchmark)) cs.

(** What a run shows of the strategy: the printed strategy return and the
    plotted strategy series. *)
Definition is_strategy_event (e : event) : bool :=
  match e with
  | Print (StrategyReturn _) | PlotLine StrategyLine _ => true
  | _ => false
  end.

Definition strategy_view (t : trace) : trace := filter is_strategy_event t.

(** The strategy events a fetched table leads to. *)
Definition strategy_events (self : Backtester) (data_raw : raw_table)
  : trace :=
  if raw_empty data_raw then [] else
  match snd (find_target_col data_raw) with
  | None => []
  | Some target =>
      match getitem data_raw target with
      | SelSeries _ => []
      | SelFrame selected =>
          let data := clean selected in
          let strategy_col :=
            strategy_series self data (map_cols normalize_col data) in
          if is_nil (valid_tickers self data) then [] else
          match iloc_last strategy_col with
          | None => []
          | Some last_value =>
              [Print (StrategyReturn (F64.sub last_value F64.hundred));
               PlotLine StrategyLine strategy_col]
          end
      end
  end.

(** The ticker field of the input file: the column named [ticker], or else
    the column named [Ticker]. *)
Definition ticker_column (df : list (string * list string))
  : option (list string) :=
  match csv_column "ticker" df with
  | Some c => Some c
  | None => csv_column "Ticker" df
  end.

(** The fatal conditions of a run of the script on the file at [path], each
    with the diagnostic that names it. *)
Inductive fatal_condition (w : world) (path : string) (years : nat)
  : message -> Prop :=
  | file_missing :
      read_csv w path = FileNotFound ->
      fatal_condition w path years ErrFileNotFound
  | column_absent (df : list (string * list string)) :
      read_csv w path = Csv df ->
      ticker_column df = None ->
      fatal_condition w path years ErrNoTickerColumn
  | fetch_failure :
      tickers (snd (init w path years)) <> [] ->
      fetched w (snd (init w path years)) = FetchRaises ->
      fatal_condition w path years ErrDownload
  | fetch_empty (data_raw : raw_table) :
      tickers (snd (init w path years)) <> [] ->
      fetched w (snd (init w path years)) = Fetched data_raw ->
      raw_empty data_raw = true ->
      fatal_condition w path years ErrNoData
  | no_price_field (data_raw : raw_table) :
      tickers (snd (init w path years)) <> [] ->
      fetched w (snd (init w path years)) = Fetched data_raw ->
      raw_empty data_raw = false ->
      snd (find_target_col data_raw) = None ->
      fatal_condition w path years ErrNoPriceField
  | no_valid_candidates (data_raw : raw_table) (target : string)
      (selected : frame string) :
      tickers (snd (init w path years)) <> [] ->
      fetched w (snd (init w path years)) = Fetched data_raw ->
      raw_empty data_raw = false ->
      snd (find_target_col data_raw) = Some target ->
      getitem data_raw target = SelFrame selected ->
      valid_tickers (snd (init w path years)) (clean selected) = [] ->
      fatal_condition w path years ErrNoValidData.

(** ** Scenarios *)

Definition buy_list : string := "reports/NSE_Buy_List.csv".

Definition no_data : list string -> string -> string -> fetch_result :=
  fun _ _ _ => FetchRaises.

Definition three_years : nat -> string * string :=
  fun _ => ("2023-11-04", "2026-11-03").

(** A buy list that names one symbol twice. *)
Definition world_repeated : world :=
  mkWorld (fun _ => Csv [("ticker", ["AAA"; "AAA"; "BBB"])])
          three_years no_data.

(** No buy list on disk. *)
Definition world_missing : world :=
  mkWorld (fun _ => FileNotFound) three_years no_data.

Definition prices (zs : list Z) : series := map F64.of_Z zs.

Definition adj_close (symbol : string) (zs : list Z)
  : (string * string) * series :=
  (("Adj Close", symbol), prices zs).

Definition two_candidates : string -> csv_result :=
  fun _ => Csv [("ticker", ["AAA"; "BBB"])].

(** The [Backtester] built from the two-candidate buy list. *)
Definition two_self : Backtester := mkBacktester buy_list 3 ["AAA"; "BBB"].

(** The scenario of the specification: two candidates and the benchmark
    over two rows. *)
Definition scenario_table : frame (string * string) :=
  mkFrame 2 [adj_close "AAA" [100; 110]%Z;
             adj_close "BBB" [50; 60]%Z;
             adj_close "^NSEI" [200; 190]%Z].

Definition scenario_world : world :=
  mkWorld two_candidates three_years
          (fun _ _ _ => Fetched (Layered scenario_table)).

Definition scenario_data : frame string :=
  clean (cross_section "Adj Close" scenario_table).

(** 110.00000000000001, the binary64 number next above 110:
    [7740561859543041 * 2^-46]. *)
Definition above_110 : cell := S754_finite false 7740561859543041 (-46).

(** Candidates and benchmark with the same prices: an exact tie. *)
Definition tie_table : frame (string * string) :=
  mkFrame 2 [adj_close "AAA" [100; 110]%Z;
             adj_close "BBB" [100; 110]%Z;
             adj_close "^NSEI" [100; 110]%Z].

Definition tie_world : world :=
  mkWorld two_candidates three_years
          (fun _ _ _ => Fetched (Layered tie_table)).

(** A candidate whose first price is zero. *)
Definition zero_table : frame (string * string) :=
  mkFrame 2 [adj_close "AAA" [0; 10]%Z;
             adj_close "BBB" [100; 110]%Z;
             adj_close "^NSEI" [200; 190]%Z].

Definition zero_world : world :=
  mkWorld two_candidates three_years
          (fun _ _ _ => Fetched (Layered zero_table)).

Definition zero_data : frame string :=
  clean (cross_section "Adj Close" zero_table).

(** Only raw closes, with gaps, a candidate that failed to download and no
    benchmark. *)
Definition gap_table : frame (string * string) :=
  mkFrame 3 [(("Close", "AAA"), [F64.nan; F64.of_Z 100; F64.nan]);
             (("Close", "BBB"), [F64.nan; F64.nan; F64.nan]);
             (("Volume", "AAA"), prices [7; 8; 9]%Z)].

Definition gap_world : world :=
  mkWorld two_candidates three_years
          (fun _ _ _ => Fetched (Layered gap_table)).

(** A table with neither price field, flat and two-level. *)
Definition volume_only : raw_table :=
  Layered (mkFrame 1 [(("Volume", "AAA"), prices [7]%Z)]).

Definition volume_world : world :=
  mkWorld two_candidates three_years (fun _ _ _ => Fetched volume_only).

(** A flat table, as for a single symbol: its columns are the fields. *)
Definition flat_table : raw_table :=
  Flat (mkFrame 2 [("Close", prices [100; 110]%Z);
                   ("Volume", prices [7; 8]%Z)]).

Definition flat_world : world :=
  mkWorld two_candidates three_years (fun _ _ _ => Fetched flat_table).

(** The provider raises, answers with nothing, or knows no candidate. *)
Definition failing_world : world :=
  mkWorld two_candidates three_years no_data.

Definition empty_world : world :=
  mkWorld two_candidates three_years
          (fun _ _ _ => Fetched (Layered (mkFrame 0 []))).

Definition stranger_world : world :=
  mkWorld two_candidates three_years
          (fun _ _ _ => Fetched (Layered
             (mkFrame 2 [adj_close "^NSEI" [200; 190]%Z]))).

Definition headless_world : world :=
  mkWorld (fun _ => Csv [("symbol", ["AAA"])]) three_years no_data.

Definition tie_data : frame string :=
  clean (cross_section "Adj Close" tie_table).

(** The scenario of the specification with another benchmark history. *)
Definition other_table : frame (string * string) :=
  mkFrame 2 [adj_close "AAA" [100; 110]%Z;
             adj_close "BBB" [50; 60]%Z;
             adj_close "^NSEI" [200; 250]%Z].

Definition other_world : world :=
  mkWorld two_candidates three_years
          (fun _ _ _ => Fetched (Layered other_table)).

(** ** Further vocabulary *)

(** A missing value. *)
Definition missing (v : cell) : Prop := F64.is_nan v = true.

(** The first observation of a column, and the observation a forward fill
    carries once it has read a column. *)
Fixpoint first_valid (c : series) : option cell :=
  match c with
  | [] => None
  | x :: r => if F64.is_nan x then first_valid r else Some x
  end.

Fixpoint carry (last : option cell) (c : series) : option cell :=
  match c with
  | [] => last
  | x :: r => carry (if F64.is_nan x then last else Some x) r
  end.

(** The requests a run has sent to the provider. *)
Definition downloads (t : trace) : list (list string) :=
  flat_map (fun e => match e with
                     | Download ts _ _ => [ts]
                     | _ => []
                     end) t.

Definition is_savefig (e : event) : bool :=
  match e with SaveFig _ => true | _ => false end.

(** The charts a run has written. *)
Definition charts (t : trace) : trace := filter is_savefig t.

(** The ways a run goes, with what it has printed, requested and plotted
    and how it ends. *)
Inductive run_shape (w : world) (self : Backtester)
  : trace * outcome -> Prop :=
  | shape_no_tickers :
      tickers self = [] ->
      run_shape w self ([Print WarnNoTickers], Returned)
  | shape_fetch_raises :
      tickers self <> [] ->
      fetched w self = FetchRaises ->
      run_shape w self (header w self ++ [Print ErrDownload], Returned)
  | shape_fetch_empty (data_raw : raw_table) :
      tickers self <> [] ->
      fetched w self = Fetched data_raw ->
      raw_empty data_raw = true ->
      run_shape w self (header w self ++ [Print ErrNoData], Returned)
  | shape_no_price_field (data_raw : raw_table) :
      tickers self <> [] ->
      fetched w self = Fetched data_raw ->
      raw_empty data_raw = false ->
      snd (find_target_col data_raw) = None ->
      run_shape w self
        (header w self ++ fst (find_target_col data_raw)
           ++ [Print ErrNoPriceField], Returned)
  | shape_series (data_raw : raw_table) (target : string)
      (s : option series) :
      tickers self <> [] ->
      fetched w self = Fetched data_raw ->
      raw_empty data_raw = false ->
      snd (find_target_col data_raw) = Some target ->
      getitem data_raw target = SelSeries s ->
      run_shape w self
        (header w self ++ fst (find_target_col data_raw), Raised ValueError)
  | shape_no_valid (data_raw : raw_table) (target : string)
      (selected : frame string) :
      tickers self <> [] ->
      fetched w self = Fetched data_raw ->
      raw_empty data_raw = false ->
      snd (find_target_col data_raw) = Some target ->
      getitem data_raw target = SelFrame selected ->
      valid_tickers self (clean selected) = [] ->
      run_shape w self
        (header w self ++ fst (find_target_col data_raw)
           ++ [Print ErrNoValidData], Returned)
  | shape_simulated (data_raw : raw_table) (target : string)
      (selected : frame string) :
      tickers self <> [] ->
      fetched w self = Fetched data_raw ->
      raw_empty data_raw = false ->
      snd (find_target_col data_raw) = Some target ->
      getitem data_raw target = SelFrame selected ->
      valid_tickers self (clean selected) <> [] ->
      run_shape w self
        (header w self ++ fst (find_target_col data_raw)
           ++ benchmark_warning (map_cols normalize_col (clean selected))
           ++ fst (report (fst (window w (years self)))
                          (snd (window w (years self)))
                          (strategy_series self (clean selected)
                             (map_cols normalize_col (clean selected)))
                          (lookup benchmark
                             (cols (map_cols normalize_col
                                      (clean selected))))),
         snd (report (fst (window w (years self)))
                     (snd (window w (years self)))
                     (strategy_series self (clean selected)
                        (map_cols normalize_col (clean selected)))
                     (lookup benchmark
                        (cols (map_cols normalize_col (clean selected)))))).

(** ** Further scenarios *)

(** A column that starts late and has a gap of two rows. *)
Definition late_gap : series := [F64.nan].
Definition inner_gap : series := [F64.nan; F64.nan].
Definition after_gap : series := [F64.of_Z 130; F64.nan].

Definition gappy : series :=
  late_gap ++ F64.of_Z 100 :: inner_gap ++ after_gap.

(** Two candidates without a price that is not zero. *)
Definition nan_table : frame (string * string) :=
  mkFrame 2 [adj_close "AAA" [0; 0]%Z;
             adj_close "BBB" [0; 0]%Z;
             adj_close "^NSEI" [200; 190]%Z].

Definition nan_world : world :=
  mkWorld two_candidates three_years
          (fun _ _ _ => Fetched (Layered nan_table)).

Definition flat_frame : frame string :=
  mkFrame 2 [("Close", prices [100; 110]%Z); ("Volume", prices [7; 8]%Z)].

(** The scenario of the specification with its columns the other way
    round. *)
Definition shuffled_table : frame (string * string) :=
  mkFrame 2 [adj_close "^NSEI" [200; 190]%Z;
             adj_close "BBB" [50; 60]%Z;
             adj_close "AAA" [100; 110]%Z].

Definition shuffled_world : world :=
  mkWorld two_candidates three_years
          (fun _ _ _ => Fetched (Layered shuffled_table)).

(** * Properties *)

(** ** Cleaning *)

Section Fill.

Lemma ffill_from_length (c : series) :
  forall last, List.length (ffill_from last c) = List.length c.
Proof.
  induction c as [|x r IH]; intros last; simpl; [reflexivity|].
  destruct (F64.is_nan x); [destruct last|]; simpl; now rewrite IH.
Qed.

(** Once a valid observation is carried, nothing stays missing. *)
Lemma ffill_from_some (c : series) :
  forall v, present v -> Forall present (ffill_from (Some v) c).
Proof.
  induction c as [|x r IH]; intros v Hv; simpl; [constructor|].
  destruct (F64.is_nan x) eqn:Hx.
  - constructor; auto.
  - constructor; [exact Hx | apply IH; exact Hx].
Qed.

Lemma nonempty_last {A} (x : A) (l : list A) :
  exists pre y, x :: l = pre ++ [y].
Proof.
  destruct (exists_last (l := x :: l)) as [pre [y E]]; [discriminate|].
  now exists pre, y.
Qed.

(** The forward fill of a column with some data ends on a value. *)
Lemma ffill_from_ends_present (c : series) :
  forall last, all_missing c = false ->
  exists pre y, ffill_from last c = pre ++ [y] /\ present y.
Proof.
  induction c as [|x r IH]; intros last H; simpl in *; [discriminate|].
  destruct (F64.is_nan x) eqn:Hx; simpl in H.
  - destruct (IH last H) as [pre [y [E Hy]]].
    destruct last as [v|]; rewrite E.
    + now exists (v :: pre), y.
    + now exists (x :: pre), y.
  - assert (F : Forall present (x :: ffill_from (Some x) r))
      by (constructor; [exact Hx | now apply ffill_from_some]).
    destruct (nonempty_last x (ffill_from (Some x) r)) as [pre [y E]].
    exists pre, y. split; [exact E|].
    rewrite E in F. apply Forall_app in F. destruct F as [_ F].
    now inversion F.
Qed.

Lemma fill_col_present (c : series) :
  all_missing c = false -> Forall present (bfill_col (ffill_col c)).
Proof.
  intros H. unfold bfill_col, ffill_col at 2.
  destruct (ffill_from_ends_present c None H) as [pre [y [E Hy]]].
  rewrite E, rev_app_distr. simpl. unfold ffill_col. simpl.
  unfold present in Hy. rewrite Hy.
  apply Forall_rev. constructor; [exact Hy | now apply ffill_from_some].
Qed.

Lemma fill_col_length (c : series) :
  List.length (bfill_col (ffill_col c)) = List.length c.
Proof.
  unfold bfill_col, ffill_col.
  now rewrite length_rev, ffill_from_length, length_rev, ffill_from_length.
Qed.

End Fill.

Lemma clean_cols {L} (selected : frame L) :
  cols (clean selected) =
  map (fun c => (fst c, bfill_col (ffill_col (snd c))))
      (filter (fun c => negb (all_missing (snd c))) (cols selected)).
Proof.
  unfold clean, bfill, ffill, map_cols, dropna_all. simpl.
  rewrite map_map. reflexivity.
Qed.

Lemma clean_nrows {L} (selected : frame L) :
  nrows (clean selected) = nrows selected.
Proof. reflexivity. Qed.

Lemma clean_columns {L} (selected : frame L) :
  columns (clean selected) =
  map fst (filter (fun c => negb (all_missing (snd c))) (cols selected)).
Proof.
  unfold columns. rewrite clean_cols, map_map. reflexivity.
Qed.

Lemma clean_cols_present {L} (selected : frame L) :
  Forall (fun c => Forall present (snd c)) (cols (clean selected)).
Proof.
  rewrite clean_cols. apply Forall_forall. intros [l c] Hin.
  apply in_map_iff in Hin. destruct Hin as [[l0 c0] [E Hin]].
  apply filter_In in Hin. destruct Hin as [_ Hkeep].
  inversion E; subst. simpl in *.
  apply fill_col_present. now apply negb_true_iff.
Qed.

(** C7. The cleaning stage keeps exactly the columns of the selected price
    table that hold at least one observation, in their order, and after the
    forward fill followed by the backward fill no retained column holds a
    missing value. *)
Theorem clean_no_missing {L} (selected : frame L) :
  columns (clean selected) =
    map fst (filter (fun c => negb (all_missing (snd c))) (cols selected))
  /\ Forall (fun c => Forall present (snd c)) (cols (clean selected)).
Proof. split; [apply clean_columns | apply clean_cols_present]. Qed.

(** ** Normalization *)

Module F64Facts.

Lemma div_eucl_mul_pow2 (m : positive) :
  Z.div_eucl (Z.shiftl (Zpos m) 53) (Zpos m) = (2 ^ 53, 0)%Z.
Proof.
  pose proof (Z.div_eucl_eq (Z.shiftl (Zpos m) 53) (Zpos m)) as E.
  assert (Hq : (Z.shiftl (Zpos m) 53 / Zpos m = 2 ^ 53)%Z).
  { rewrite Z.shiftl_mul_pow2 by lia.
    rewrite Z.mul_comm. apply Z.div_mul. lia. }
  assert (Hr : (Z.shiftl (Zpos m) 53 mod Zpos m = 0)%Z).
  { rewrite Z.shiftl_mul_pow2 by lia.
    rewrite Z.mul_comm. apply Z.mod_mul. lia. }
  unfold Z.div, Z.modulo in Hq, Hr.
  destruct (Z.div_eucl (Z.shiftl (Zpos m) 53) (Zpos m)) as [q r].
  now subst.
Qed.

Lemma new_location_zero (m : Z) : new_location m 0 = loc_Exact.
Proof.
  unfold new_location, new_location_even, new_location_odd.
  now destruct (Z.even m).
Qed.

Lemma div_core_self (m : positive) (e : Z) :
  SFdiv_core_binary F64.prec F64.emax (Zpos m) e (Zpos m) e
  = ((2 ^ 53)%Z, (-53)%Z, loc_Exact).
Proof.
  unfold SFdiv_core_binary.
  replace (Zdigits2 (Zpos m) + e - (Zdigits2 (Zpos m) + e))%Z with 0%Z by lia.
  replace (e - e)%Z with 0%Z by lia.
  change (Z.min (fexp F64.prec F64.emax 0) 0) with (-53)%Z.
  change (0 - -53)%Z with 53%Z.
  cbv iota beta.
  rewrite div_eucl_mul_pow2, new_location_zero. reflexivity.
Qed.

(** A finite non-zero number divided by itself is exactly one. *)
Lemma div_self (x : F64.t) :
  F64.is_finite_nonzero x = true -> F64.div x x = F64.one.
Proof.
  destruct x as [s|s| |s m e]; try discriminate. intros _.
  unfold F64.div, SFdiv. rewrite div_core_self.
  rewrite xorb_nilpotent. vm_compute. reflexivity.
Qed.

Lemma one_times_hundred : F64.mul F64.one F64.hundred = F64.hundred.
Proof. vm_compute. reflexivity. Qed.

(** Comparison and the special values *)

Lemma compare_eq_sym (x y : F64.t) :
  SFcompare x y = Some Eq -> SFcompare y x = Some Eq.
Proof.
  destruct x as [s|s| |s m e], y as [s'|s'| |s' m' e']; simpl;
    try congruence; try (destruct s, s'; congruence);
    try (destruct s; congruence); try (destruct s'; congruence).
  change (Pos.compare_cont Eq m m') with (Pos.compare m m').
  change (Pos.compare_cont Eq m' m) with (Pos.compare m' m).
  destruct s, s'; try congruence;
    destruct (Z.compare_spec e e'); try congruence;
    destruct (Pos.compare_spec m m'); simpl; try congruence;
    subst; now rewrite Z.compare_refl, Pos.compare_refl.
Qed.

Lemma eqb_not_gtb (x y : F64.t) :
  F64.eqb x y = true -> F64.gtb x y = false.
Proof.
  unfold F64.eqb, F64.gtb, SFeqb, SFltb. intros H.
  destruct (SFcompare x y) as [[| |]|] eqn:E; try discriminate.
  now rewrite (compare_eq_sym x y E).
Qed.





(** Rounding never produces NaN *)

Lemma iter_pos_invariant {A} (P : A -> Prop) (f : A -> A) :
  (forall x, P x -> P (f x)) ->
  forall p x, P x -> P (iter_pos f p x).
Proof.
  intros Hf. induction p as [p IH|p IH|]; intros x Hx; simpl; auto.
Qed.

Lemma shr_1_nonneg (mrs : shr_record) :
  (0 <= shr_m mrs)%Z -> (0 <= shr_m (shr_1 mrs))%Z.
Proof.
  destruct mrs as [m r s]. simpl.
  destruct m as [|[p|p|]|[p|p|]]; simpl; intros H; lia.
Qed.

Lemma shr_nonneg (mrs : shr_record) (e n : Z) :
  (0 <= shr_m mrs)%Z -> (0 <= shr_m (fst (shr mrs e n)))%Z.
Proof.
  intros H. unfold shr. destruct n as [|p|p]; simpl; try exact H.
  apply (iter_pos_invariant (fun x => (0 <= shr_m x)%Z)); [|exact H].
  apply shr_1_nonneg.
Qed.

Lemma shr_fexp_nonneg (m e : Z) (l : location) :
  (0 <= m)%Z ->
  (0 <= shr_m (fst (shr_fexp F64.prec F64.emax m e l)))%Z.
Proof.
  intros H. unfold shr_fexp. apply shr_nonneg.
  destruct l as [|[| |]]; exact H.
Qed.

Lemma round_nearest_even_nonneg (m : Z) (l : location) :
  (0 <= m)%Z -> (0 <= round_nearest_even m l)%Z.
Proof.
  intros H. unfold round_nearest_even.
  destruct l as [|[| |]]; try exact H; [destruct (Z.even m)|]; lia.
Qed.

Lemma binary_round_aux_not_nan (sx : bool) (mx ex : Z) (lx : location) :
  (0 <= mx)%Z ->
  F64.is_nan (binary_round_aux F64.prec F64.emax sx mx ex lx) = false.
Proof.
  intros H. unfold binary_round_aux.
  pose proof (shr_fexp_nonneg mx ex lx H) as H1.
  destruct (shr_fexp F64.prec F64.emax mx ex lx) as [mrs' e']. simpl in H1.
  pose proof (shr_fexp_nonneg _ e' loc_Exact
                (round_nearest_even_nonneg _ (loc_of_shr_record mrs') H1))
    as H2.
  destruct (shr_fexp F64.prec F64.emax
              (round_nearest_even (shr_m mrs') (loc_of_shr_record mrs'))
              e' loc_Exact) as [mrs'' e'']. simpl in H2.
  destruct (shr_m mrs'') as [|m|m]; [reflexivity| |lia].
  now destruct (e'' <=? F64.emax - F64.prec)%Z.
Qed.

Lemma div_core_nonneg (m1 m2 : positive) (e1 e2 : Z) :
  (0 <= fst (fst (SFdiv_core_binary F64.prec F64.emax
                    (Zpos m1) e1 (Zpos m2) e2)))%Z.
Proof.
  unfold SFdiv_core_binary.
  set (s := (e1 - e2 - _)%Z).
  set (m' := match s with Zpos _ => Z.shiftl (Zpos m1) s | Z0 => Zpos m1
                     | Zneg _ => 0%Z end).
  assert (Hm : (0 <= m')%Z).
  { unfold m'. destruct s; try lia. apply Z.shiftl_nonneg. lia. }
  pose proof (Z.div_pos m' (Zpos m2) Hm ltac:(lia)) as Hq.
  unfold Z.div in Hq.
  destruct (Z.div_eucl m' (Zpos m2)) as [q r]. exact Hq.
Qed.

Lemma div_present (p first : F64.t) :
  F64.is_nan p = false -> F64.is_finite_nonzero first = true ->
  F64.is_nan (F64.div p first) = false.
Proof.
  destruct first as [s|s| |s m e]; try discriminate.
  destruct p as [sp|sp| |sp mp ep]; try discriminate; try reflexivity.
  intros _ _. unfold F64.div, SFdiv.
  pose proof (div_core_nonneg mp m ep e) as H.
  destruct (SFdiv_core_binary F64.prec F64.emax (Zpos mp) ep (Zpos m) e)
    as [[mz ez] lz]. simpl in H.
  now apply binary_round_aux_not_nan.
Qed.

Lemma mul_hundred_present (x : F64.t) :
  F64.is_nan x = false -> F64.is_nan (F64.mul x F64.hundred) = false.
Proof.
  destruct x as [s|s| |s m e]; try discriminate; try reflexivity.
  intros _. unfold F64.mul. 
  change F64.hundred with (S754_finite false 7036874417766400 (-46)).
  unfold SFmul.
  apply binary_round_aux_not_nan. lia.
Qed.

End F64Facts.

Lemma normalize_col_length (c : series) :
  List.length (normalize_col c) = List.length c.
Proof. destruct c; simpl; [reflexivity|]. now rewrite length_map. Qed.

Lemma normalize_col_nth (c : series) (i : nat) (first p : cell) :
  nth_error c 0 = Some first ->
  nth_error c i = Some p ->
  nth_error (normalize_col c) i
  = Some (F64.mul (F64.div p first) F64.hundred).
Proof.
  destruct c as [|x r]; [discriminate|]. intros H0 Hi.
  simpl in H0. inversion H0; subst.
  unfold normalize_col.
  change (F64.mul (F64.div p first) F64.hundred)
    with ((fun p => F64.mul (F64.div p first) F64.hundred) p).
  now apply map_nth_error.
Qed.

Lemma normalize_col_first (c : series) :
  starts_on_price c = true ->
  nth_error (normalize_col c) 0 = Some F64.hundred.
Proof.
  destruct c as [|x r]; [discriminate|]. simpl. intros H.
  now rewrite F64Facts.div_self, F64Facts.one_times_hundred.
Qed.

(** C4. On a price table with at least one row whose columns each start on
    a non-zero price, normalization succeeds, keeps the columns and their
    labels, makes the first entry of every column exactly 100, and turns
    every price into that price divided by the first price of its column,
    times 100. *)
Theorem normalize_base_100 {L} (data : frame L) :
  nrows data <> 0 ->
  Forall (fun c => starts_on_price (snd c) = true) (cols data) ->
  exists normalized_data,
    normalize data = Some normalized_data
    /\ nrows normalized_data = nrows data
    /\ Forall2
         (fun c n =>
            fst n = fst c
            /\ List.length (snd n) = List.length (snd c)
            /\ nth_error (snd n) 0 = Some F64.hundred
            /\ forall i first p,
                 nth_error (snd c) 0 = Some first ->
                 nth_error (snd c) i = Some p ->
                 nth_error (snd n) i
                 = Some (F64.mul (F64.div p first) F64.hundred))
         (cols data) (cols normalized_data).
Proof.
  intros Hrows Hfirst.
  exists (map_cols normalize_col data). unfold normalize.
  apply Nat.eqb_neq in Hrows. rewrite Hrows.
  split; [reflexivity|]. split; [reflexivity|].
  unfold map_cols. simpl.
  induction (cols data) as [|[l c] r IH]; simpl; constructor.
  - inversion Hfirst; subst. simpl in *.
    repeat split.
    + apply normalize_col_length.
    + now apply normalize_col_first.
    + intros i first p. apply normalize_col_nth.
  - apply IH. now inversion Hfirst.
Qed.

(** ** The shape of a run *)

Lemma is_nil_false {A} (l : list A) : l <> [] -> is_nil l = false.
Proof. destruct l; [congruence | reflexivity]. Qed.

Lemma mem_lookup (t : string) (cs : list (string * series)) :
  mem t (map fst cs) = true -> exists c, lookup t cs = Some c.
Proof.
  induction cs as [|[l c] r IH]; simpl; [discriminate|].
  destruct (String.eqb t l); simpl; eauto.
Qed.

Lemma lookup_mem (t : string) (cs : list (string * series)) (c : series) :
  lookup t cs = Some c -> mem t (map fst cs) = true.
Proof.
  induction cs as [|[l c0] r IH]; simpl; [discriminate|].
  destruct (String.eqb t l); simpl; auto.
Qed.

Lemma lookup_In (t : string) (cs : list (string * series)) (c : series) :
  lookup t cs = Some c -> In (t, c) cs.
Proof.
  induction cs as [|[l c0] r IH]; simpl; [discriminate|].
  destruct (String.eqb t l) eqn:E.
  - apply String.eqb_eq in E. intros H. inversion H; subst. now left.
  - intros H. right. now apply IH.
Qed.

Lemma getitems_present (labels : list string) (cs : list (string * series)) :
  (forall t, In t labels -> mem t (map fst cs) = true) ->
  getitems labels cs
  = Some (map (fun t => match lookup t cs with Some c => c | None => [] end)
              labels).
Proof.
  induction labels as [|t r IH]; intros H; simpl; [reflexivity|].
  destruct (mem_lookup t cs (H t (or_introl eq_refl))) as [c E].
  rewrite E, IH; [reflexivity|]. intros u Hu. apply H. now right.
Qed.

Lemma normalize_some {L} (data normalized_data : frame L) :
  normalize data = Some normalized_data ->
  nrows data <> 0
  /\ normalized_data = map_cols normalize_col data.
Proof.
  unfold normalize. destruct (nrows data =? 0)%nat eqn:E; [discriminate|].
  intros H. inversion H. split; [now apply Nat.eqb_neq | reflexivity].
Qed.

Lemma map_cols_columns {L} (f : series -> series) (df : frame L) :
  columns (map_cols f df) = columns df.
Proof. unfold columns, map_cols. simpl. now rewrite map_map. Qed.

Lemma iloc_last_snoc (s : series) (x : cell) : iloc_last (s ++ [x]) = Some x.
Proof. unfold iloc_last. now rewrite rev_app_distr. Qed.

Lemma mean_axis1_length (n : nat) (cs : list series) :
  List.length (mean_axis1 n cs) = n.
Proof. unfold mean_axis1. now rewrite length_map, length_seq. Qed.

Lemma mean_axis1_nth (n i : nat) (cs : list series) :
  i < n -> nth_error (mean_axis1 n cs) i = Some (nanmean (row_at i cs)).
Proof.
  intros H. unfold mean_axis1.
  change (nanmean (row_at i cs)) with ((fun i => nanmean (row_at i cs)) i).
  apply map_nth_error.
  rewrite nth_error_nth' with (d := 0) by (now rewrite length_seq).
  now rewrite seq_nth.
Qed.

Lemma mean_axis1_last (n : nat) (cs : list series) :
  iloc_last (mean_axis1 (S n) cs) = Some (nanmean (row_at n cs)).
Proof.
  unfold mean_axis1. rewrite seq_S, map_app. simpl. apply iloc_last_snoc.
Qed.

Section Run.

Variable w : world.
Variable self : Backtester.

Lemma run_no_tickers :
  tickers self = [] -> run_backtest w self = ([Print WarnNoTickers], Returned).
Proof. intros H. unfold run_backtest. now rewrite H. Qed.

Hypothesis Htickers : tickers self <> [].

Lemma run_fetch_raises :
  fetched w self = FetchRaises ->
  run_backtest w self = (header w self ++ [Print ErrDownload], Returned).
Proof.
  unfold run_backtest, fetched, header.
  rewrite (is_nil_false _ Htickers).
  destruct (window w (years self)) as [sd ed]. simpl.
  now intros ->.
Qed.

Variable data_raw : raw_table.
Hypothesis Hfetched : fetched w self = Fetched data_raw.

Lemma run_fetch_empty :
  raw_empty data_raw = true ->
  run_backtest w self = (header w self ++ [Print ErrNoData], Returned).
Proof.
  revert Hfetched. unfold run_backtest, fetched, header.
  rewrite (is_nil_false _ Htickers).
  destruct (window w (years self)) as [sd ed]. simpl.
  now intros -> ->.
Qed.

Hypothesis Hnonempty : raw_empty data_raw = false.

Lemma run_no_price_field (notes : trace) :
  find_target_col data_raw = (notes, None) ->
  run_backtest w self
  = (header w self ++ notes ++ [Print ErrNoPriceField], Returned).
Proof.
  revert Hfetched. unfold run_backtest, fetched, header.
  rewrite (is_nil_false _ Htickers).
  destruct (window w (years self)) as [sd ed]. simpl.
  intros -> ->. rewrite Hnonempty. reflexivity.
Qed.

Variable notes : trace.
Variable target : string.
Hypothesis Htarget : find_target_col data_raw = (notes, Some target).

Lemma run_series (s : option series) :
  getitem data_raw target = SelSeries s ->
  run_backtest w self = (header w self ++ notes, Raised ValueError).
Proof.
  revert Hfetched. unfold run_backtest, fetched, header.
  rewrite (is_nil_false _ Htickers).
  destruct (window w (years self)) as [sd ed]. simpl.
  intros -> H. rewrite Hnonempty, Htarget, H. reflexivity.
Qed.

Variable selected : frame string.
Hypothesis Hselected : getitem data_raw target = SelFrame selected.

Lemma run_normalization_error :
  normalize (clean selected) = None ->
  run_backtest w self
  = (header w self ++ notes ++ [Print ErrNormalization], Returned).
Proof.
  revert Hfetched. unfold run_backtest, fetched, header.
  rewrite (is_nil_false _ Htickers).
  destruct (window w (years self)) as [sd ed]. simpl.
  intros -> H. rewrite Hnonempty, Htarget, Hselected.
  fold (clean selected). rewrite H. reflexivity.
Qed.

Variable normalized_data : frame string.
Hypothesis Hnormalized : normalize (clean selected) = Some normalized_data.

Lemma run_no_valid_tickers :
  valid_tickers self (clean selected) = [] ->
  run_backtest w self
  = (header w self ++ notes ++ [Print ErrNoValidData], Returned).
Proof.
  revert Hfetched. unfold run_backtest, fetched, header, valid_tickers.
  rewrite (is_nil_false _ Htickers).
  destruct (window w (years self)) as [sd ed]. simpl.
  intros -> H. rewrite Hnonempty, Htarget, Hselected.
  fold (clean selected). rewrite Hnormalized, H. reflexivity.
Qed.

Lemma valid_tickers_selected :
  getitems (valid_tickers self (clean selected)) (cols normalized_data)
  = Some (map (fun t => column_of t normalized_data)
              (valid_tickers self (clean selected))).
Proof.
  unfold column_of. apply getitems_present.
  intros t Ht. apply filter_In in Ht. destruct Ht as [_ Ht].
  destruct (normalize_some _ _ Hnormalized) as [_ ->].
  fold (columns (map_cols normalize_col (clean selected))).
  now rewrite map_cols_columns.
Qed.

(** A run that reaches the simulation prints the header, the notes of
    the selector and the benchmark warning, then reports on the strategy
    series. *)
Lemma run_simulated :
  valid_tickers self (clean selected) <> [] ->
  run_backtest w self
  = (header w self ++ notes ++ benchmark_warning normalized_data
       ++ fst (report (fst (window w (years self)))
                      (snd (window w (years self)))
                      (strategy_series self (clean selected) normalized_data)
                      (lookup benchmark (cols normalized_data))),
     snd (report (fst (window w (years self)))
                 (snd (window w (years self)))
                 (strategy_series self (clean selected) normalized_data)
                 (lookup benchmark (cols normalized_data)))).
Proof.
  intros Hvalid. pose proof valid_tickers_selected as Hsel.
  revert Hfetched Hsel Hvalid.
  unfold run_backtest, fetched, header, strategy_series, benchmark_warning,
    valid_tickers.
  rewrite (is_nil_false _ Htickers).
  destruct (window w (years self)) as [sd ed]. simpl.
  intros -> Hsel Hvalid. rewrite Hnonempty, Htarget, Hselected.
  fold (clean selected). rewrite Hnormalized.
  rewrite (is_nil_false _ Hvalid), Hsel.
  destruct (report sd ed _ _) as [out res]. simpl.
  now rewrite <- !app_assoc.
Qed.

End Run.

(** ** Selection of the price field *)

Lemma find_target_col_fields (data_raw : raw_table) :
  find_target_col data_raw =
  if mem "Adj Close" (fields data_raw) then ([], Some "Adj Close")
  else if mem "Close" (fields data_raw)
       then ([Print NoteUsingClose], Some "Close")
       else ([], None).
Proof. destruct data_raw; reflexivity. Qed.

Lemma getitem_nonempty (data_raw : raw_table) (target : string)
    (selected : frame string) :
  raw_empty data_raw = false ->
  getitem data_raw target = SelFrame selected ->
  normalize (clean selected)
  = Some (map_cols normalize_col (clean selected)).
Proof.
  destruct data_raw as [df|df]; simpl; [discriminate|].
  intros He Hs. inversion Hs; subst. unfold normalize.
  rewrite clean_nrows. unfold cross_section. simpl.
  unfold empty in He. apply orb_false_iff in He. destruct He as [He _].
  now rewrite He.
Qed.


(** ** The ticker list *)

Lemma load_tickers_spec (w : world) (path : string) :
  load_tickers w path =
  match read_csv w path with
  | FileNotFound => ([Print ErrFileNotFound], [])
  | Csv df =>
      match ticker_column df with
      | Some c => ([], c)
      | None => ([Print ErrNoTickerColumn], [])
      end
  end.
Proof.
  unfold load_tickers, ticker_column.
  destruct (read_csv w path) as [|df]; [reflexivity|].
  destruct (csv_column "ticker" df); [reflexivity|].
  destruct (csv_column "Ticker" df); reflexivity.
Qed.

Lemma main_eq (w : world) (path : string) (years : nat) :
  main w path years
  = (fst (load_tickers w path)
       ++ fst (run_backtest w (snd (init w path years))),
     snd (run_backtest w (snd (init w path years)))).
Proof.
  unfold main, init. destruct (load_tickers w path) as [out ts]. simpl.
  destruct (run_backtest w _). reflexivity.
Qed.

Lemma init_tickers (w : world) (path : string) (years : nat) :
  tickers (snd (init w path years)) = snd (load_tickers w path).
Proof. unfold init. now destruct (load_tickers w path). Qed.

Lemma load_tickers_quiet (w : world) (path : string) :
  snd (load_tickers w path) <> [] -> fst (load_tickers w path) = [].
Proof.
  rewrite load_tickers_spec. destruct (read_csv w path) as [|df]; simpl.
  - congruence.
  - destruct (ticker_column df); simpl; congruence.
Qed.

(** C9, as the code has it.  A successful load returns the ticker column of
    the file as it stands, in file order and with every repetition (column
    [ticker], or else column [Ticker]); a failed load returns the empty
    list; and when the list is empty, the run prints its notice and returns
    before any download. *)
Theorem ticker_list_is_column (w : world) (path : string) (years : nat) :
  (forall df c,
      read_csv w path = Csv df -> ticker_column df = Some c ->
      load_tickers w path = ([], c))
  /\ (read_csv w path = FileNotFound
      \/ (exists df, read_csv w path = Csv df /\ ticker_column df = None) ->
      snd (load_tickers w path) = [])
  /\ (snd (load_tickers w path) = [] ->
      main w path years
      = (fst (load_tickers w path) ++ [Print WarnNoTickers], Returned)
      /\ no_download (fst (main w path years))).
Proof.
  split; [|split].
  - intros df c Hr Hc. now rewrite load_tickers_spec, Hr, Hc.
  - rewrite load_tickers_spec. intros [Hr | [df [Hr Hc]]].
    + now rewrite Hr.
    + now rewrite Hr, Hc.
  - intros He.
    assert (E : main w path years
                = (fst (load_tickers w path) ++ [Print WarnNoTickers],
                   Returned)).
    { rewrite main_eq, run_no_tickers; [reflexivity|].
      now rewrite init_tickers. }
    split; [exact E|]. rewrite E. simpl.
    rewrite load_tickers_spec.
    destruct (read_csv w path) as [|df]; [reflexivity|].
    destruct (ticker_column df); reflexivity.
Qed.

Lemma ticker_list_is_column_witness :
  load_tickers world_repeated buy_list = ([], ["AAA"; "AAA"; "BBB"])
  /\ snd (load_tickers world_missing buy_list) = []
  /\ main world_missing buy_list 3
     = ([Print ErrFileNotFound; Print WarnNoTickers], Returned).
Proof.
  refine (conj _ (conj _ _)).
  - apply (proj1 (ticker_list_is_column world_repeated buy_list 3)
             [("ticker", ["AAA"; "AAA"; "BBB"])]); reflexivity.
  - apply (proj1 (proj2 (ticker_list_is_column world_missing buy_list 3))).
    left. reflexivity.
  - apply (proj2 (proj2 (ticker_list_is_column world_missing buy_list 3))).
    reflexivity.
Defined.

(** C9 as stated fails: the loader does not remove repetitions, so the
    ticker list of a file that names a symbol twice names it twice. *)
Lemma ticker_list_not_unique :
  snd (load_tickers world_repeated buy_list) = ["AAA"; "AAA"; "BBB"]
  /\ ~ NoDup (snd (load_tickers world_repeated buy_list)).
Proof.
  split; [reflexivity|]. simpl. intros H. inversion H as [|x l Hn _]; subst.
  apply Hn. now left.
Qed.

(** ** Fatal conditions *)

Lemma load_tickers_no_artifact (w : world) (path : string) :
  no_artifact (fst (load_tickers w path)).
Proof.
  rewrite load_tickers_spec. destruct (read_csv w path) as [|df].
  - reflexivity.
  - destruct (ticker_column df); reflexivity.
Qed.

Lemma no_artifact_app (t u : trace) :
  no_artifact t -> no_artifact u -> no_artifact (t ++ u).
Proof.
  unfold no_artifact. intros Ht Hu. now rewrite forallb_app, Ht, Hu.
Qed.

Lemma header_no_artifact (w : world) (self : Backtester) :
  no_artifact (header w self).
Proof. reflexivity. Qed.

Lemma notes_no_artifact (data_raw : raw_table) :
  no_artifact (fst (find_target_col data_raw)).
Proof.
  rewrite find_target_col_fields.
  destruct (mem "Adj Close" (fields data_raw)); [reflexivity|].
  destruct (mem "Close" (fields data_raw)); reflexivity.
Qed.

(** C8. Under each fatal condition the script returns, its diagnostic is
    the last thing printed (after a loader failure only the notice that there
    is nothing to test follows, and nothing has been requested from the
    provider), and nothing of the report or the chart has been produced. *)
Theorem fatal_conditions_halt (w : world) (path : string) (years : nat)
    (d : message) :
  fatal_condition w path years d ->
  snd (main w path years) = Returned
  /\ no_artifact (fst (main w path years))
  /\ (fst (main w path years) = [Print d; Print WarnNoTickers]
      \/ exists notes,
           fst (main w path years)
           = header w (snd (init w path years)) ++ notes ++ [Print d]).
Proof.
  intros H. rewrite main_eq. simpl.
  destruct H as [Hr | df Hr Hc | Ht Hf | raw Ht Hf He | raw Ht Hf He Hn
                 | raw target selected Ht Hf He Hn Hs Hv].
  - rewrite run_no_tickers
      by (rewrite init_tickers, load_tickers_spec, Hr; reflexivity).
    rewrite load_tickers_spec, Hr. simpl. repeat split. now left.
  - rewrite run_no_tickers
      by (rewrite init_tickers, load_tickers_spec, Hr, Hc; reflexivity).
    rewrite load_tickers_spec, Hr, Hc. simpl. repeat split. now left.
  - rewrite (run_fetch_raises w _ Ht Hf).
    rewrite load_tickers_quiet by (now rewrite <- init_tickers with (years := years)).
    simpl. repeat split. right. now exists [].
  - rewrite (run_fetch_empty w _ Ht raw Hf He).
    rewrite load_tickers_quiet by (now rewrite <- init_tickers with (years := years)).
    simpl. repeat split. right. now exists [].
  - destruct (find_target_col raw) as [notes tc] eqn:E. simpl in Hn. subst tc.
    rewrite (run_no_price_field w _ Ht raw Hf He notes E).
    rewrite load_tickers_quiet by (now rewrite <- init_tickers with (years := years)).
    simpl. split; [reflexivity|]. split.
    + apply (no_artifact_app (header w _) (notes ++ [Print ErrNoPriceField])).
      * apply header_no_artifact.
      * apply no_artifact_app; [|reflexivity].
        pose proof (notes_no_artifact raw) as N. now rewrite E in N.
    + right. now exists notes.
  - destruct (find_target_col raw) as [notes tc] eqn:E. simpl in Hn. subst tc.
    rewrite (run_no_valid_tickers w _ Ht raw Hf He notes target E selected Hs
               _ (getitem_nonempty raw target selected He Hs) Hv).
    rewrite load_tickers_quiet by (now rewrite <- init_tickers with (years := years)).
    simpl. split; [reflexivity|]. split.
    + apply (no_artifact_app (header w _) (notes ++ [Print ErrNoValidData])).
      * apply header_no_artifact.
      * apply no_artifact_app; [|reflexivity].
        pose proof (notes_no_artifact raw) as N. now rewrite E in N.
    + right. now exists notes.
Qed.

(** ** Rectangular tables *)

Section Rectangular.

Lemma cross_section_rectangular (target : string)
    (df : frame (string * string)) :
  rectangular df -> rectangular (cross_section target df).
Proof.
  unfold rectangular, cross_section. simpl. intros H.
  induction H as [|c r Hc _ IH]; simpl; [constructor|].
  destruct (String.eqb _ target); simpl; [|exact IH].
  constructor; [exact Hc | exact IH].
Qed.

Lemma clean_rectangular {L} (selected : frame L) :
  rectangular selected -> rectangular (clean selected).
Proof.
  unfold rectangular. rewrite clean_cols, clean_nrows. intros H.
  induction H as [|c r Hc _ IH]; simpl; [constructor|].
  destruct (all_missing _); simpl; [exact IH|].
  constructor; [|exact IH]. simpl. now rewrite fill_col_length.
Qed.

Lemma normalized_rectangular {L} (data : frame L) :
  rectangular data -> rectangular (map_cols normalize_col data).
Proof.
  unfold rectangular, map_cols. simpl. intros H.
  induction H as [|c r Hc _ IH]; simpl; constructor; [|exact IH].
  simpl. now rewrite normalize_col_length.
Qed.

Lemma rectangular_lookup (df : frame string) (t : string) (c : series) :
  rectangular df -> lookup t (cols df) = Some c ->
  List.length c = nrows df.
Proof.
  intros H Hl. apply lookup_In in Hl. unfold rectangular in H.
  rewrite Forall_forall in H. exact (H _ Hl).
Qed.

Lemma iloc_last_nonempty (c : series) (n : nat) :
  List.length c = S n -> iloc_last c <> None.
Proof.
  intros H. destruct (exists_last (l := c)) as [pre [x E]].
  - intros ->. discriminate.
  - rewrite E, iloc_last_snoc. discriminate.
Qed.

End Rectangular.

(** ** Runs that reach the simulation *)

Lemma column_of_map_cols (f : series -> series) (t : string)
    (df : frame string) :
  f [] = [] -> column_of t (map_cols f df) = f (column_of t df).
Proof.
  intros Hf. unfold column_of, map_cols. simpl.
  induction (cols df) as [|[l c] r IH]; simpl; [now rewrite Hf|].
  now destruct (String.eqb t l).
Qed.

Lemma nanmean_all_present (row : list cell) :
  row <> [] -> Forall present row -> nanmean row = arithmetic_mean row.
Proof.
  intros Hne H. unfold nanmean, arithmetic_mean, count_valid.
  assert (Hf : filter (fun v => negb (F64.is_nan v)) row = row).
  { clear Hne. induction H as [|x r Hx _ IH]; simpl; [reflexivity|].
    unfold present in Hx. now rewrite Hx, IH. }
  assert (Hz : map fill_zero row = row).
  { clear Hne Hf. induction H as [|x r Hx _ IH]; simpl; [reflexivity|].
    rewrite IH. unfold fill_zero. unfold present in Hx. now rewrite Hx. }
  rewrite Hf, Hz. destruct row; [congruence | reflexivity].
Qed.



Lemma report_benchmark (sd ed : string) (s b : series) (last lb : cell) :
  iloc_last s = Some last -> iloc_last b = Some lb ->
  report sd ed s (Some b)
  = ([Print ResultsHeader; Print (Timeframe sd ed);
      Print (StrategyReturn (F64.sub last F64.hundred));
      Print (BenchmarkReturn (F64.sub lb F64.hundred));
      Print (verdict (F64.sub last F64.hundred) (F64.sub lb F64.hundred))]
       ++ plot s (Some b), Returned).
Proof. intros Hs Hb. unfold report. now rewrite Hs, Hb. Qed.

Lemma report_strategy (sd ed : string) (s : series) (b : option series)
    (last : cell) :
  iloc_last s = Some last ->
  exists rest,
    fst (report sd ed s b)
    = [Print ResultsHeader; Print (Timeframe sd ed);
       Print (StrategyReturn (F64.sub last F64.hundred))] ++ rest
    /\ (snd (report sd ed s b) = Returned -> In (PlotLine StrategyLine s) rest).
Proof.
  intros Hs. unfold report. rewrite Hs.
  destruct b as [b|].
  - destruct (iloc_last b) as [lb|].
    + eexists. split; [reflexivity|]. intros _. simpl. right. right. now left.
    + exists []. split; [reflexivity|]. discriminate.
  - eexists. split; [reflexivity|]. intros _. simpl. now left.
Qed.

Section Simulated.

Variable w : world.
Variable self : Backtester.
Variable data_raw : raw_table.
Variable notes : trace.
Variable target : string.
Variable selected : frame string.

Hypothesis Htickers : tickers self <> [].
Hypothesis Hfetched : fetched w self = Fetched data_raw.
Hypothesis Hnonempty : raw_empty data_raw = false.
Hypothesis Htarget : find_target_col data_raw = (notes, Some target).
Hypothesis Hselected : getitem data_raw target = SelFrame selected.
Hypothesis Hvalid : valid_tickers self (clean selected) <> [].

Lemma simulated_run :
run_backtest w self
= (header w self ++ notes
     ++ benchmark_warning (map_cols normalize_col (clean selected))
     ++ fst (report (fst (window w (years self)))
                    (snd (window w (years self)))
                    (strategy_series self (clean selected)
                       (map_cols normalize_col (clean selected)))
                    (lookup benchmark
                       (cols (map_cols normalize_col (clean selected))))),
   snd (report (fst (window w (years self)))
               (snd (window w (years self)))
               (strategy_series self (clean selected)
                  (map_cols normalize_col (clean selected)))
               (lookup benchmark
                  (cols (map_cols normalize_col (clean selected)))))).
Proof.
apply (run_simulated w self Htickers data_raw Hfetched Hnonempty
         notes target Htarget selected Hselected
         (map_cols normalize_col (clean selected))
         (getitem_nonempty data_raw target selected Hnonempty Hselected)
         Hvalid).
Qed.

Lemma simulated_rows : exists n, nrows (clean selected) = S n.
Proof.
destruct (normalize_some _ _
            (getitem_nonempty data_raw target selected Hnonempty Hselected))
  as [Hn _].
destruct (nrows (clean selected)) as [|n]; [congruence|]. now exists n.
Qed.

Lemma strategy_row (i : nat) :
row_at i (map (fun t => column_of t
                          (map_cols normalize_col (clean selected)))
              (valid_tickers self (clean selected)))
= normalized_row self (clean selected) i.
Proof.
unfold row_at, normalized_row, normalized_value.
rewrite map_map. apply map_ext. intros t.
now rewrite column_of_map_cols.
Qed.

Lemma strategy_last :
exists n, nrows (clean selected) = S n
  /\ iloc_last (strategy_series self (clean selected)
                  (map_cols normalize_col (clean selected)))
     = Some (nanmean (normalized_row self (clean selected) n)).
Proof.
destruct simulated_rows as [n Hn]. exists n. split; [exact Hn|].
unfold strategy_series.
change (nrows (map_cols normalize_col (clean selected)))
  with (nrows (clean selected)).
rewrite Hn. now rewrite mean_axis1_last, strategy_row.
Qed.

End Simulated.

Lemma column_of_lookup (t : string) (df : frame string) (x : cell)
    (r : series) :
  column_of t df = x :: r -> lookup t (cols df) = Some (x :: r).
Proof.
  unfold column_of.
  destruct (lookup t (cols df)); intros H; [now rewrite H | discriminate].
Qed.

Lemma clean_column_present (selected : frame string) (t : string)
    (x : cell) (r : series) :
  column_of t (clean selected) = x :: r -> Forall present (x :: r).
Proof.
  intros H. apply column_of_lookup, lookup_In in H.
  pose proof (clean_cols_present selected) as F.
  rewrite Forall_forall in F. exact (F _ H).
Qed.

(** On a cleaned table, the normalized values of a column that starts on a
    price are all there. *)
Lemma normalized_value_present (selected : frame string) (t : string)
    (i : nat) :
  rectangular selected ->
  starts_on_price (column_of t (clean selected)) = true ->
  i < nrows (clean selected) ->
  present (normalized_value (clean selected) t i).
Proof.
  intros Hrect Hstart Hi. unfold normalized_value.
  destruct (column_of t (clean selected)) as [|first rest] eqn:E;
    [discriminate|].
  pose proof (clean_column_present selected t first rest E) as Hp.
  pose proof (rectangular_lookup (clean selected) t (first :: rest)
                (clean_rectangular selected Hrect)
                (column_of_lookup t (clean selected) first rest E)) as Hlen.
  destruct (nth_error (first :: rest) i) as [p|] eqn:Hnth.
  - assert (Hv : nth i (normalize_col (first :: rest)) F64.nan
                 = F64.mul (F64.div p first) F64.hundred).
    { apply nth_error_nth. unfold normalize_col.
      change (F64.mul (F64.div p first) F64.hundred)
        with ((fun p => F64.mul (F64.div p first) F64.hundred) p).
      now apply map_nth_error. }
    rewrite Hv. apply nth_error_In in Hnth. rewrite Forall_forall in Hp.
    apply F64Facts.mul_hundred_present, F64Facts.div_present.
    + exact (Hp p Hnth).
    + exact Hstart.
  - apply nth_error_None in Hnth. lia.
Qed.


(** C3. In a run where both returns are computed the result lines end with
    the verdict: success, with [strategy_return - benchmark_return] as the
    margin, exactly when [strategy_return > benchmark_return]; otherwise
    underperformance, with the absolute value of that difference; and equal
    returns are never a success. *)
Theorem verdict_is_strict (w : world) (self : Backtester)
    (data_raw : raw_table) (notes : trace) (target : string)
    (selected : frame string) (b : series) (last_benchmark : cell) :
  tickers self <> [] ->
  fetched w self = Fetched data_raw ->
  raw_empty data_raw = false ->
  find_target_col data_raw = (notes, Some target) ->
  getitem data_raw target = SelFrame selected ->
  valid_tickers self (clean selected) <> [] ->
  lookup benchmark (cols (map_cols normalize_col (clean selected))) = Some b ->
  iloc_last b = Some last_benchmark ->
  exists last_value,
    iloc_last (strategy_series self (clean selected)
                 (map_cols normalize_col (clean selected)))
    = Some last_value
    /\ let strategy_return := F64.sub last_value F64.hundred in
       let benchmark_return := F64.sub last_benchmark F64.hundred in
       run_backtest w self
       = (header w self ++ notes
            ++ [Print ResultsHeader;
                Print (Timeframe (fst (window w (years self)))
                                 (snd (window w (years self))));
                Print (StrategyReturn strategy_return);
                Print (BenchmarkReturn benchmark_return);
                Print (if F64.gtb strategy_return benchmark_return
                       then Success (F64.sub strategy_return benchmark_return)
                       else Underperformance
                              (F64.abs (F64.sub strategy_return
                                                benchmark_return)))]
            ++ plot (strategy_series self (clean selected)
                       (map_cols normalize_col (clean selected)))
                    (Some b),
          Returned)
       /\ (F64.eqb strategy_return benchmark_return = true ->
           F64.gtb strategy_return benchmark_return = false).
Proof.
  intros Ht Hf He Htc Hs Hv Hb Hlb.
  destruct (strategy_last self data_raw target selected He Hs)
    as [n [_ Hlast]].
  eexists. split; [exact Hlast|]. cbv zeta. split.
  - rewrite (simulated_run w self data_raw notes target selected
               Ht Hf He Htc Hs Hv).
    unfold benchmark_warning. rewrite Hb.
    rewrite (report_benchmark _ _ _ _ _ _ Hlast Hlb). reflexivity.
  - apply F64Facts.eqb_not_gtb.
Qed.

(** C5, as the code has it.  In a run that reaches the simulation the
    strategy series has one value per row of the cleaned table; the value on
    a row is pandas' mean of the normalized values on that row of the
    candidates that are columns of the cleaned table, taken in the order and
    with the repetitions of the candidate list: it skips missing values, and
    it is the arithmetic mean of the whole row when no value on it is
    missing, as on every row when each of these candidates starts on a
    finite non-zero price.  The strategy return that is printed is the last value of the
    series minus 100, and the series is what is plotted. *)
Theorem strategy_is_mean_of_present (w : world) (self : Backtester)
    (data_raw : raw_table) (notes : trace) (target : string)
    (selected : frame string) :
  tickers self <> [] ->
  fetched w self = Fetched data_raw ->
  raw_empty data_raw = false ->
  find_target_col data_raw = (notes, Some target) ->
  getitem data_raw target = SelFrame selected ->
  valid_tickers self (clean selected) <> [] ->
  let data := clean selected in
  let strategy_col := strategy_series self data (map_cols normalize_col data) in
  List.length strategy_col = nrows data
  /\ (forall i, i < nrows data ->
        nth_error strategy_col i = Some (nanmean (normalized_row self data i))
        /\ (Forall present (normalized_row self data i) ->
            nanmean (normalized_row self data i)
            = arithmetic_mean (normalized_row self data i)))
  /\ (rectangular selected ->
      Forall (fun t => starts_on_price (column_of t data) = true)
             (valid_tickers self data) ->
      forall i, i < nrows data ->
        nth_error strategy_col i
        = Some (arithmetic_mean (normalized_row self data i)))
  /\ exists last_value pre rest,
       iloc_last strategy_col = Some last_value
       /\ fst (run_backtest w self)
          = pre ++ Print (StrategyReturn (F64.sub last_value F64.hundred))
                :: rest
       /\ (snd (run_backtest w self) = Returned ->
           In (PlotLine StrategyLine strategy_col) rest).
Proof.
  intros Ht Hf He Htc Hs Hv data strategy_col. subst data strategy_col.
  assert (Hrow : forall i, normalized_row self (clean selected) i <> []).
  { intros i. unfold normalized_row.
    destruct (valid_tickers self (clean selected));
      [congruence | discriminate]. }
  assert (Hnth : forall i, i < nrows (clean selected) ->
            nth_error (strategy_series self (clean selected)
                         (map_cols normalize_col (clean selected))) i
            = Some (nanmean (normalized_row self (clean selected) i))).
  { intros i Hi. unfold strategy_series. simpl.
    rewrite mean_axis1_nth by exact Hi.
    now rewrite (strategy_row self selected i). }
  split; [apply mean_axis1_length|]. split; [|split].
  - intros i Hi. split; [now apply Hnth|].
    now apply nanmean_all_present.
  - intros Hrect Hstart i Hi. rewrite (Hnth i Hi). f_equal.
    apply nanmean_all_present; [apply Hrow|].
    unfold normalized_row. apply Forall_map.
    apply Forall_impl with (2 := Hstart). intros t Hstart_t.
    now apply normalized_value_present.
  - destruct (strategy_last self data_raw target selected He Hs)
      as [n [_ Hlast]].
    destruct (report_strategy (fst (window w (years self)))
                (snd (window w (years self))) _
                (lookup benchmark
                   (cols (map_cols normalize_col (clean selected))))
                _ Hlast) as [rest [Hrep Hplot]].
    eexists.
    exists (header w self ++ notes
              ++ benchmark_warning (map_cols normalize_col (clean selected))
              ++ [Print ResultsHeader;
                  Print (Timeframe (fst (window w (years self)))
                                   (snd (window w (years self))))]).
    exists rest. split; [exact Hlast|].
    rewrite (simulated_run w self data_raw notes target selected
               Ht Hf He Htc Hs Hv).
    match goal with
    | |- fst (?a, ?b) = _ /\ _ =>
        change (fst (a, b)) with a; change (snd (a, b)) with b
    end.
    rewrite Hrep. split.
    + rewrite <- !app_assoc. reflexivity.
    + exact Hplot.
Qed.

(** ** The scenario of the specification *)

(** C1, as the code has it.  On candidates AAA and BBB with prices
    AAA=[100,110], BBB=[50,60] and benchmark [200,190], the normalized
    series are AAA=[100, 110.00000000000001] (in binary64 [110/100*100] is
    the number next above 110), BBB=[100,120] and benchmark [100,95]; the
    strategy series is [100,115], the strategy return 15, the benchmark
    return -5, and the verdict is success with a margin of 20. *)
Theorem scenario_results :
  normalize scenario_data
  = Some (mkFrame 2 [("AAA", [F64.of_Z 100; above_110]);
                     ("BBB", prices [100; 120]%Z);
                     ("^NSEI", prices [100; 95]%Z)])
  /\ above_110 = SFsucc F64.prec F64.emax (F64.of_Z 110)
  /\ strategy_series two_self scenario_data
       (map_cols normalize_col scenario_data)
     = prices [100; 115]%Z
  /\ main scenario_world buy_list 3
     = ([Print (Banner 3);
         Print (TestingOn ["AAA"; "BBB"]);
         Download ["AAA"; "BBB"; "^NSEI"] "2023-11-04" "2026-11-03";
         Print ResultsHeader;
         Print (Timeframe "2023-11-04" "2026-11-03");
         Print (StrategyReturn (F64.of_Z 15));
         Print (BenchmarkReturn (F64.of_Z (-5)));
         Print (Success (F64.of_Z 20));
         PlotLine StrategyLine (prices [100; 115]%Z);
         PlotLine BenchmarkLine (prices [100; 95]%Z);
         SaveFig output_file;
         Print (ChartSaved output_file)],
        Returned).
Proof. repeat split; vm_compute; reflexivity. Qed.

(** C1 as stated fails on one number: the normalized series of AAA is not
    [100, 110]. *)
Lemma scenario_normalized_AAA_is_not_110 :
  ~ (exists normalized_data,
        normalize scenario_data = Some normalized_data
        /\ lookup "AAA" (cols normalized_data) = Some (prices [100; 110]%Z)).
Proof.
  intros [nd [Hn Hl]]. vm_compute in Hn. inversion Hn; subst.
  vm_compute in Hl. discriminate.
Qed.

(** ** A first price of zero *)



(** ** Independence of the benchmark *)

Section View.

Lemma strategy_view_app (t u : trace) :
  strategy_view (t ++ u) = strategy_view t ++ strategy_view u.
Proof. apply filter_app. Qed.

Lemma strategy_view_notes (data_raw : raw_table) :
  strategy_view (fst (find_target_col data_raw)) = [].
Proof.
  rewrite find_target_col_fields.
  destruct (mem "Adj Close" (fields data_raw)); [reflexivity|].
  destruct (mem "Close" (fields data_raw)); reflexivity.
Qed.

Lemma strategy_view_warning (normalized_data : frame string) :
  strategy_view (benchmark_warning normalized_data) = [].
Proof.
  unfold benchmark_warning.
  now destruct (lookup benchmark (cols normalized_data)).
Qed.

Lemma strategy_view_report (sd ed : string) (s : series)
    (b : option series) (last : cell) :
  iloc_last s = Some last ->
  (forall c, b = Some c -> iloc_last c <> None) ->
  strategy_view (fst (report sd ed s b))
  = [Print (StrategyReturn (F64.sub last F64.hundred));
     PlotLine StrategyLine s].
Proof.
  intros Hs Hb. unfold report. rewrite Hs.
  destruct b as [c|]; [|reflexivity].
  destruct (iloc_last c) as [lb|] eqn:E.
  - simpl. unfold verdict.
    now destruct (F64.gtb (F64.sub last F64.hundred)
                          (F64.sub lb F64.hundred)).
  - exfalso. now apply (Hb c).
Qed.

(** The strategy events of a run are those of the table it fetched. *)
Lemma run_strategy_view (w : world) (self : Backtester)
    (data_raw : raw_table) :
  tickers self <> [] ->
  fetched w self = Fetched data_raw ->
  raw_rectangular data_raw ->
  strategy_view (fst (run_backtest w self)) = strategy_events self data_raw.
Proof.
  intros Ht Hf Hrect. unfold strategy_events.
  destruct (raw_empty data_raw) eqn:He.
  { now rewrite (run_fetch_empty w self Ht data_raw Hf He). }
  pose proof (strategy_view_notes data_raw) as Hnotes.
  destruct (find_target_col data_raw) as [notes tc] eqn:Htc.
  cbn [fst] in Hnotes. cbn [snd].
  destruct tc as [target|].
  2:{ rewrite (run_no_price_field w self Ht data_raw Hf He notes Htc).
      cbn [fst]. change (header w self ++ notes ++ [Print ErrNoPriceField])
        with (header w self ++ (notes ++ [Print ErrNoPriceField])).
      now rewrite !strategy_view_app, Hnotes. }
  destruct (getitem data_raw target) as [selected|s] eqn:Hs.
  2:{ rewrite (run_series w self Ht data_raw Hf He notes target Htc s Hs).
      cbn [fst]. now rewrite strategy_view_app, Hnotes. }
  cbv zeta.
  destruct (is_nil (valid_tickers self (clean selected))) eqn:Hv.
  { assert (Hv' : valid_tickers self (clean selected) = [])
      by (destruct (valid_tickers self (clean selected));
          [reflexivity | discriminate]).
    rewrite (run_no_valid_tickers w self Ht data_raw Hf He notes target Htc
               selected Hs _
               (getitem_nonempty data_raw target selected He Hs) Hv').
    cbn [fst]. now rewrite !strategy_view_app, Hnotes. }
  assert (Hv' : valid_tickers self (clean selected) <> [])
    by (intros E; rewrite E in Hv; discriminate).
  rewrite (simulated_run w self data_raw notes target selected
             Ht Hf He Htc Hs Hv').
  cbn [fst]. rewrite !strategy_view_app, Hnotes, strategy_view_warning.
  destruct (strategy_last self data_raw target selected He Hs)
    as [n [Hn Hlast]].
  rewrite Hlast. cbn [app].
  apply strategy_view_report; [exact Hlast|].
  intros c Hc. apply iloc_last_nonempty with (n := n).
  rewrite <- Hn.
  apply (rectangular_lookup (map_cols normalize_col (clean selected))
           benchmark c); [|exact Hc].
  apply normalized_rectangular, clean_rectangular.
  destruct data_raw as [df|df]; simpl in Hs; [discriminate|].
  inversion Hs; subst. now apply cross_section_rectangular.
Qed.

End View.

Section OffBenchmark.

Lemma off_benchmark_filter (P : string * series -> bool)
    (cs : list (string * series)) :
  off_benchmark (filter P cs) = filter P (off_benchmark cs).
Proof.
  unfold off_benchmark. induction cs as [|c r IH]; simpl; [reflexivity|].
  destruct (P c) eqn:HP; simpl;
    destruct (negb (String.eqb (fst c) benchmark)); simpl;
    rewrite ?HP, IH; reflexivity.
Qed.

Lemma off_benchmark_map (f : series -> series)
    (cs : list (string * series)) :
  off_benchmark (map (fun c => (fst c, f (snd c))) cs)
  = map (fun c => (fst c, f (snd c))) (off_benchmark cs).
Proof.
  unfold off_benchmark. induction cs as [|c r IH]; simpl; [reflexivity|].
  destruct (negb (String.eqb (fst c) benchmark)); simpl; now rewrite IH.
Qed.

Lemma lookup_off_benchmark (t : string) (cs : list (string * series)) :
  String.eqb t benchmark = false ->
  lookup t cs = lookup t (off_benchmark cs).
Proof.
  intros Ht. unfold off_benchmark.
  induction cs as [|[l c] r IH]; simpl; [reflexivity|].
  destruct (String.eqb l benchmark) eqn:El; simpl.
  - apply String.eqb_eq in El. subst l. now rewrite Ht.
  - now rewrite IH.
Qed.

Lemma mem_off_benchmark (t : string) (cs : list (string * series)) :
  String.eqb t benchmark = false ->
  mem t (map fst cs) = mem t (map fst (off_benchmark cs)).
Proof.
  intros Ht. unfold off_benchmark, mem.
  induction cs as [|[l c] r IH]; simpl; [reflexivity|].
  destruct (String.eqb l benchmark) eqn:El; simpl.
  - apply String.eqb_eq in El. subst l. now rewrite Ht.
  - now rewrite IH.
Qed.

Lemma clean_off_benchmark (d1 d2 : frame string) :
  off_benchmark (cols d1) = off_benchmark (cols d2) ->
  off_benchmark (cols (clean d1)) = off_benchmark (cols (clean d2)).
Proof.
  intros H. rewrite !clean_cols.
  rewrite !(off_benchmark_map (fun c => bfill_col (ffill_col c))).
  now rewrite !off_benchmark_filter, H.
Qed.

Lemma normalized_off_benchmark (d1 d2 : frame string) :
  off_benchmark (cols d1) = off_benchmark (cols d2) ->
  off_benchmark (cols (map_cols normalize_col d1))
  = off_benchmark (cols (map_cols normalize_col d2)).
Proof.
  intros H. unfold map_cols. simpl.
  now rewrite !(off_benchmark_map normalize_col), H.
Qed.

Lemma cross_section_off_benchmark (target : string)
    (d1 d2 : frame (string * string)) :
  same_but_benchmark snd d1 d2 ->
  off_benchmark (cols (cross_section target d1))
  = off_benchmark (cols (cross_section target d2)).
Proof.
  intros [_ H]. unfold cross_section, off_benchmark. simpl.
  induction H as [|[[f1 s1] c1] [[f2 s2] c2] r1 r2 [Hl Hc] _ IH];
    simpl; [reflexivity|].
  simpl in Hl, Hc. inversion Hl; subst f2 s2.
  destruct (String.eqb f1 target); simpl; [|exact IH].
  destruct (String.eqb s1 benchmark) eqn:Es; simpl; [exact IH|].
  apply String.eqb_neq in Es. now rewrite (Hc Es), IH.
Qed.

Lemma same_but_benchmark_labels {L} (symbol : L -> string)
    (d1 d2 : frame L) :
  same_but_benchmark symbol d1 d2 -> columns d1 = columns d2.
Proof.
  intros [_ H]. unfold columns.
  induction H as [|c1 c2 r1 r2 [Hl _] _ IH]; simpl; [reflexivity|].
  now rewrite Hl, IH.
Qed.

Lemma same_but_benchmark_empty {L} (symbol : L -> string)
    (d1 d2 : frame L) :
  same_but_benchmark symbol d1 d2 -> empty d1 = empty d2.
Proof.
  intros [Hn H]. unfold empty. rewrite Hn. now destruct H.
Qed.

Variable self : Backtester.
Hypothesis Hbench : mem benchmark (tickers self) = false.

Lemma candidate_not_benchmark (t : string) :
  In t (tickers self) -> String.eqb t benchmark = false.
Proof.
  intros Hin. unfold mem in Hbench.
  destruct (String.eqb t benchmark) eqn:E; [|reflexivity].
  apply String.eqb_eq in E. subst t.
  assert (X : existsb (String.eqb benchmark) (tickers self) = true).
  { apply existsb_exists. exists benchmark. split; [exact Hin|].
    apply String.eqb_refl. }
  congruence.
Qed.

Lemma valid_tickers_off_benchmark (d1 d2 : frame string) :
  off_benchmark (cols d1) = off_benchmark (cols d2) ->
  valid_tickers self d1 = valid_tickers self d2.
Proof.
  intros H. unfold valid_tickers, columns. apply filter_ext_in.
  intros t Ht. apply candidate_not_benchmark in Ht.
  now rewrite (mem_off_benchmark t (cols d1) Ht),
              (mem_off_benchmark t (cols d2) Ht), H.
Qed.

Lemma strategy_series_off_benchmark (d1 d2 n1 n2 : frame string) :
  nrows n1 = nrows n2 ->
  off_benchmark (cols d1) = off_benchmark (cols d2) ->
  off_benchmark (cols n1) = off_benchmark (cols n2) ->
  strategy_series self d1 n1 = strategy_series self d2 n2.
Proof.
  intros Hn Hd Hnd. unfold strategy_series.
  rewrite Hn, (valid_tickers_off_benchmark d1 d2 Hd). f_equal.
  apply map_ext_in. intros t Ht.
  apply filter_In in Ht. destruct Ht as [Ht _].
  apply candidate_not_benchmark in Ht. unfold column_of.
  now rewrite (lookup_off_benchmark t (cols n1) Ht),
              (lookup_off_benchmark t (cols n2) Ht), Hnd.
Qed.

(** Tables that differ only under the benchmark lead to the same strategy
    events. *)
Lemma strategy_events_off_benchmark (r1 r2 : raw_table) :
  differ_only_in_benchmark r1 r2 ->
  strategy_events self r1 = strategy_events self r2.
Proof.
  intros H. unfold strategy_events.
  destruct r1 as [d1|d1], r2 as [d2|d2]; simpl in H; try contradiction.
  - rewrite !find_target_col_fields. simpl.
    rewrite (same_but_benchmark_empty _ d1 d2 H),
            (same_but_benchmark_labels _ d1 d2 H).
    destruct (empty d2); [reflexivity|].
    destruct (mem "Adj Close" (columns d2)); [reflexivity|].
    destruct (mem "Close" (columns d2)); reflexivity.
  - rewrite !find_target_col_fields. simpl.
    rewrite (same_but_benchmark_empty _ d1 d2 H),
            (same_but_benchmark_labels _ d1 d2 H).
    destruct (empty d2); [reflexivity|].
    assert (K : forall target,
      off_benchmark (cols (clean (cross_section target d1)))
      = off_benchmark (cols (clean (cross_section target d2))))
      by (intros target;
          now apply clean_off_benchmark, cross_section_off_benchmark).
    assert (N : forall target,
      nrows (map_cols normalize_col (clean (cross_section target d1)))
      = nrows (map_cols normalize_col (clean (cross_section target d2))))
      by (intros target; simpl; apply (proj1 H)).
    assert (G : forall target,
      (let data := clean (cross_section target d1) in
       let strategy_col :=
         strategy_series self data (map_cols normalize_col data) in
       if is_nil (valid_tickers self data) then [] else
       match iloc_last strategy_col with
       | None => []
       | Some last_value =>
           [Print (StrategyReturn (F64.sub last_value F64.hundred));
            PlotLine StrategyLine strategy_col]
       end)
      = (let data := clean (cross_section target d2) in
         let strategy_col :=
           strategy_series self data (map_cols normalize_col data) in
         if is_nil (valid_tickers self data) then [] else
         match iloc_last strategy_col with
         | None => []
         | Some last_value =>
             [Print (StrategyReturn (F64.sub last_value F64.hundred));
              PlotLine StrategyLine strategy_col]
         end)).
    { intros target. cbv zeta.
      rewrite (valid_tickers_off_benchmark _ _ (K target)).
      rewrite (strategy_series_off_benchmark _ _ _ _ (N target) (K target)
                 (normalized_off_benchmark _ _ (K target))).
      reflexivity. }
    destruct (mem "Adj Close" (map fst (columns d2))); [apply G|].
    destruct (mem "Close" (map fst (columns d2))); [apply G | reflexivity].
Qed.

End OffBenchmark.

(** C10. When the candidate list does not name the benchmark, two runs on
    fetched tables that differ only in the values under ['^NSEI'] show the
    same strategy: the same strategy return is printed and the same strategy
    series is plotted, or neither run gets that far. *)
Theorem strategy_ignores_benchmark (w1 w2 : world) (self : Backtester)
    (r1 r2 : raw_table) :
  mem benchmark (tickers self) = false ->
  fetched w1 self = Fetched r1 ->
  fetched w2 self = Fetched r2 ->
  raw_rectangular r1 ->
  raw_rectangular r2 ->
  differ_only_in_benchmark r1 r2 ->
  strategy_view (fst (run_backtest w1 self))
  = strategy_view (fst (run_backtest w2 self)).
Proof.
  intros Hb Hf1 Hf2 Hr1 Hr2 Hd.
  destruct (tickers self) as [|t ts] eqn:Et.
  - now rewrite !run_no_tickers.
  - assert (Ht : tickers self <> []) by (rewrite Et; discriminate).
    rewrite <- Et in Hb.
    rewrite (run_strategy_view w1 self r1 Ht Hf1 Hr1),
            (run_strategy_view w2 self r2 Ht Hf2 Hr2).
    now apply strategy_events_off_benchmark.
Qed.

(** ** Instances *)

Ltac find_event := repeat (first [left; reflexivity | right]).

Lemma two_self_init (w : world) :
  read_csv w = two_candidates -> init w buy_list 3 = ([], two_self).
Proof. intros H. unfold init, load_tickers. now rewrite H. Qed.

(** Gaps are filled and the candidate without data is dropped. *)
Lemma gap_table_cleaned :
  cols (clean (cross_section "Close" gap_table))
  = [("AAA", prices [100; 100; 100]%Z)].
Proof. vm_compute. reflexivity. Qed.

(** With raw closes only, no data for BBB and no benchmark, the run prints
    the two advisories and still reports on the strategy. *)
Lemma gap_run :
  main gap_world buy_list 3
  = ([Print (Banner 3);
      Print (TestingOn ["AAA"; "BBB"]);
      Download ["AAA"; "BBB"; "^NSEI"] "2023-11-04" "2026-11-03";
      Print NoteUsingClose;
      Print WarnBenchmarkMissing;
      Print ResultsHeader;
      Print (Timeframe "2023-11-04" "2026-11-03");
      Print (StrategyReturn (F64.of_Z 0));
      PlotLine StrategyLine (prices [100; 100; 100]%Z);
      SaveFig output_file;
      Print (ChartSaved output_file)],
     Returned).
Proof. vm_compute. reflexivity. Qed.

(** On a flat table the selector works as on a two-level one; the selected
    column is a series, on which [dropna(axis=1)] raises. *)
Lemma flat_run :
  find_target_col flat_table = ([Print NoteUsingClose], Some "Close")
  /\ main flat_world buy_list 3
     = ([Print (Banner 3);
         Print (TestingOn ["AAA"; "BBB"]);
         Download ["AAA"; "BBB"; "^NSEI"] "2023-11-04" "2026-11-03";
         Print NoteUsingClose],
        Raised ValueError).
Proof. split; vm_compute; reflexivity. Qed.

Lemma normalize_base_100_witness :
  exists normalized_data,
    normalize scenario_data = Some normalized_data
    /\ nrows normalized_data = 2.
Proof.
  destruct (normalize_base_100 scenario_data) as [nd [Hn [Hr _]]].
  - vm_compute. discriminate.
  - vm_compute. repeat constructor.
  - exists nd. split; [exact Hn | exact Hr].
Defined.


Lemma fatal_conditions_halt_witness :
  snd (main world_missing buy_list 3) = Returned
  /\ snd (main headless_world buy_list 3) = Returned
  /\ snd (main failing_world buy_list 3) = Returned
  /\ snd (main empty_world buy_list 3) = Returned
  /\ snd (main volume_world buy_list 3) = Returned
  /\ snd (main stranger_world buy_list 3) = Returned.
Proof.
  refine (conj _ (conj _ (conj _ (conj _ (conj _ _))))).
  - apply (fatal_conditions_halt world_missing buy_list 3 ErrFileNotFound).
    apply file_missing. reflexivity.
  - apply (fatal_conditions_halt headless_world buy_list 3 ErrNoTickerColumn).
    apply column_absent with (df := [("symbol", ["AAA"])]); reflexivity.
  - apply (fatal_conditions_halt failing_world buy_list 3 ErrDownload).
    apply fetch_failure; [vm_compute; discriminate | reflexivity].
  - apply (fatal_conditions_halt empty_world buy_list 3 ErrNoData).
    apply fetch_empty with (data_raw := Layered (mkFrame 0 []));
      [vm_compute; discriminate | reflexivity | reflexivity].
  - apply (fatal_conditions_halt volume_world buy_list 3 ErrNoPriceField).
    apply no_price_field with (data_raw := volume_only);
      [vm_compute; discriminate | reflexivity | reflexivity | reflexivity].
  - apply (fatal_conditions_halt stranger_world buy_list 3 ErrNoValidData).
    apply no_valid_candidates
      with (data_raw := Layered (mkFrame 2 [adj_close "^NSEI" [200; 190]%Z]))
           (target := "Adj Close")
           (selected := mkFrame 2 [("^NSEI", prices [200; 190]%Z)]);
      [vm_compute; discriminate | reflexivity | reflexivity | reflexivity
      | reflexivity | reflexivity].
Defined.

Lemma verdict_is_strict_witness :
  exists last_value,
    iloc_last (strategy_series two_self tie_data
                 (map_cols normalize_col tie_data)) = Some last_value
    /\ F64.gtb (F64.sub last_value F64.hundred)
               (F64.sub above_110 F64.hundred) = false.
Proof.
  destruct (verdict_is_strict tie_world two_self (Layered tie_table) []
              "Adj Close" (cross_section "Adj Close" tie_table)
              [F64.of_Z 100; above_110] above_110)
    as [lv [Hl [_ Htie]]].
  - vm_compute. discriminate.
  - reflexivity.
  - reflexivity.
  - reflexivity.
  - reflexivity.
  - vm_compute. discriminate.
  - vm_compute. reflexivity.
  - reflexivity.
  - exists lv. split; [exact Hl|]. apply Htie.
    vm_compute in Hl. inversion Hl. vm_compute. reflexivity.
Defined.

Lemma strategy_is_mean_of_present_witness :
  nth_error (strategy_series two_self scenario_data
               (map_cols normalize_col scenario_data)) 1
  = Some (arithmetic_mean (normalized_row two_self scenario_data 1)).
Proof.
  refine (proj1 (proj2 (proj2
            (strategy_is_mean_of_present scenario_world two_self
               (Layered scenario_table) [] "Adj Close"
               (cross_section "Adj Close" scenario_table) _ _ _ _ _ _)))
            _ _ 1 _).
  - vm_compute. discriminate.
  - reflexivity.
  - reflexivity.
  - reflexivity.
  - reflexivity.
  - vm_compute. discriminate.
  - vm_compute. repeat constructor.
  - vm_compute. repeat constructor.
  - vm_compute. lia.
Defined.

(** C5 as stated fails where a normalized value is missing: with a first
    price of zero for AAA the first row of normalized values is [NaN, 100];
    its arithmetic mean is NaN, and the strategy series, which the run
    plots, starts on 100, the mean over BBB alone. *)
Lemma strategy_is_not_mean_of_all_present :
  valid_tickers two_self zero_data = ["AAA"; "BBB"]
  /\ normalized_row two_self zero_data 0 = [F64.nan; F64.of_Z 100]
  /\ arithmetic_mean (normalized_row two_self zero_data 0) = F64.nan
  /\ nth_error (strategy_series two_self zero_data
                  (map_cols normalize_col zero_data)) 0
     = Some (F64.of_Z 100)
  /\ nth_error (strategy_series two_self zero_data
                  (map_cols normalize_col zero_data)) 0
     <> Some (arithmetic_mean (normalized_row two_self zero_data 0))
  /\ In (PlotLine StrategyLine
           (strategy_series two_self zero_data
              (map_cols normalize_col zero_data)))
        (fst (main zero_world buy_list 3)).
Proof.
  repeat split; try (vm_compute; reflexivity).
  - vm_compute. discriminate.
  - vm_compute. find_event.
Qed.



Lemma strategy_ignores_benchmark_witness :
  strategy_view (fst (run_backtest scenario_world two_self))
  = strategy_view (fst (run_backtest other_world two_self)).
Proof.
  apply (strategy_ignores_benchmark scenario_world other_world two_self
           (Layered scenario_table) (Layered other_table)).
  - reflexivity.
  - reflexivity.
  - reflexivity.
  - vm_compute. repeat constructor.
  - vm_compute. repeat constructor.
  - split; [reflexivity|].
    repeat constructor; simpl; intros H; try reflexivity;
      exfalso; apply H; reflexivity.
Defined.

Lemma scenario_strategy_views :
  strategy_view (fst (run_backtest scenario_world two_self))
  = [Print (StrategyReturn (F64.of_Z 15));
     PlotLine StrategyLine (prices [100; 115]%Z)]
  /\ strategy_view (fst (run_backtest other_world two_self))
     = [Print (StrategyReturn (F64.of_Z 15));
        PlotLine StrategyLine (prices [100; 115]%Z)].
Proof. split; vm_compute; reflexivity. Qed.

(** * Further properties *)

(** ** Forward and backward fill *)

Section FillMore.

Lemma ffill_from_app (l r : series) :
  forall last,
    ffill_from last (l ++ r)
    = ffill_from last l ++ ffill_from (carry last l) r.
Proof.
  induction l as [|x l IH]; intros last; simpl; [reflexivity|].
  destruct (F64.is_nan x); [destruct last|]; simpl; now rewrite IH.
Qed.

Lemma carry_app (l r : series) :
  forall last, carry last (l ++ r) = carry (carry last l) r.
Proof. induction l as [|x l IH]; intros last; simpl; auto. Qed.

Lemma carry_rev (c : series) : carry None (rev c) = first_valid c.
Proof.
  induction c as [|x r IH]; simpl; [reflexivity|].
  rewrite carry_app, IH. simpl. now destruct (F64.is_nan x).
Qed.

(** Backward fill, read from the front of the column. *)
Lemma bfill_col_cons (x : cell) (r : series) :
  bfill_col (x :: r)
  = (if F64.is_nan x
     then match first_valid r with Some v => v | None => x end
     else x) :: bfill_col r.
Proof.
  unfold bfill_col, ffill_col. simpl.
  rewrite ffill_from_app, rev_app_distr, carry_rev. simpl.
  destruct (F64.is_nan x); [|reflexivity].
  now destruct (first_valid r).
Qed.

Lemma bfill_col_nil : bfill_col [] = [].
Proof. reflexivity. Qed.

Lemma ffill_from_keeps (c : series) :
  forall last i x,
    nth_error c i = Some x -> present x ->
    nth_error (ffill_from last c) i = Some x.
Proof.
  induction c as [|y r IH]; intros last i x Hn Hx; [now destruct i|].
  destruct i as [|i]; simpl in Hn.
  - inversion Hn; subst y. simpl. unfold present in Hx. now rewrite Hx.
  - simpl. destruct (F64.is_nan y); [destruct last|]; simpl; now apply IH.
Qed.

Lemma bfill_col_keeps (c : series) :
  forall i x,
    nth_error c i = Some x -> present x ->
    nth_error (bfill_col c) i = Some x.
Proof.
  induction c as [|y r IH]; intros i x Hn Hx; [now destruct i|].
  rewrite bfill_col_cons. destruct i as [|i]; simpl in Hn.
  - inversion Hn; subst y. unfold present in Hx. now rewrite Hx.
  - simpl. now apply IH.
Qed.

Lemma ffill_from_incl (c : series) :
  forall last v, In v (ffill_from last c) -> In v c \/ last = Some v.
Proof.
  induction c as [|y r IH]; intros last v H; simpl in H; [contradiction|].
  destruct (F64.is_nan y) eqn:Hy; [destruct last as [u|]|]; simpl in H.
  - destruct H as [->|H]; [now right|].
    destruct (IH _ _ H) as [K|K]; [left; now right | now right].
  - destruct H as [->|H]; [left; now left|].
    destruct (IH _ _ H) as [K|K]; [left; now right | discriminate].
  - destruct H as [->|H]; [left; now left|].
    destruct (IH _ _ H) as [K|K]; [left; now right|].
    inversion K; subst. left. now left.
Qed.

Lemma ffill_from_missing (g : series) (x : cell) :
  Forall missing g -> ffill_from (Some x) g = repeat x (List.length g).
Proof.
  intros H. induction H as [|y r Hy _ IH]; simpl; [reflexivity|].
  unfold missing in Hy. now rewrite Hy, IH.
Qed.

Lemma carry_missing (g : series) (last : option cell) :
  Forall missing g -> carry last g = last.
Proof.
  intros H. revert last. induction H as [|y r Hy _ IH]; intros last; simpl;
    [reflexivity|].
  unfold missing in Hy. now rewrite Hy, IH.
Qed.

Lemma ffill_col_missing (g : series) :
  Forall missing g -> ffill_from None g = g.
Proof.
  intros H. induction H as [|y r Hy _ IH]; simpl; [reflexivity|].
  unfold missing in Hy. now rewrite Hy, IH.
Qed.

Lemma ffill_from_present (c : series) :
  forall last, Forall present c -> ffill_from last c = c.
Proof.
  induction c as [|y r IH]; intros last H; simpl; [reflexivity|].
  inversion H as [|? ? Hy Hr]; subst. unfold present in Hy.
  now rewrite Hy, IH.
Qed.

Lemma bfill_col_present (c : series) :
  Forall present c -> bfill_col c = c.
Proof.
  intros H. induction H as [|y r Hy _ IH]; [reflexivity|].
  rewrite bfill_col_cons, IH. unfold present in Hy. now rewrite Hy.
Qed.

Lemma first_valid_leading (g : series) (x : cell) (r : series) :
  Forall missing g -> present x -> first_valid (g ++ x :: r) = Some x.
Proof.
  intros H Hx. induction H as [|y g Hy _ IH]; simpl.
  - unfold present in Hx. now rewrite Hx.
  - unfold missing in Hy. now rewrite Hy.
Qed.

Lemma bfill_col_leading (g : series) (x : cell) (r : series) :
  Forall missing g -> present x -> Forall present r ->
  bfill_col (g ++ x :: r) = repeat x (List.length g) ++ x :: r.
Proof.
  intros H Hx Hr. induction H as [|y g Hy Hg IH]; simpl.
  - apply bfill_col_present. now constructor.
  - rewrite bfill_col_cons, IH.
    rewrite (first_valid_leading g x r Hg Hx).
    unfold missing in Hy. now rewrite Hy.
Qed.

(** The fill of a column up to the observation after its first one. *)
Lemma fill_col_until_second (g g2 : series) (x : cell) (r : series) :
  Forall missing g -> present x -> Forall missing g2 ->
  bfill_col (ffill_col (g ++ x :: g2 ++ r))
  = repeat x (List.length g + 1 + List.length g2)
      ++ ffill_from (Some x) r.
Proof.
  intros Hg Hx Hg2. unfold ffill_col.
  rewrite ffill_from_app, (ffill_col_missing g Hg), (carry_missing g _ Hg).
  simpl. pose proof Hx as Hx'. unfold present in Hx'. rewrite Hx'.
  rewrite ffill_from_app, (ffill_from_missing g2 x Hg2),
          (carry_missing g2 _ Hg2).
  rewrite bfill_col_leading; [|exact Hg|exact Hx|].
  - rewrite !repeat_app. simpl. now rewrite <- !app_assoc.
  - apply Forall_app. split; [|now apply ffill_from_some].
    apply Forall_forall. intros v Hv. apply repeat_spec in Hv. now subst.
Qed.

End FillMore.

(** X1. The fill leaves every observation where it is and makes up no
    value: a row that holds a value keeps it, and every value of the filled
    column is a value of the column. *)
Theorem fill_keeps_observations (c : series) :
  (forall i x, nth_error c i = Some x -> present x ->
               nth_error (bfill_col (ffill_col c)) i = Some x)
  /\ Forall (fun v => In v c) (bfill_col (ffill_col c)).
Proof.
  split.
  - intros i x Hn Hx. apply bfill_col_keeps; [|exact Hx].
    now apply ffill_from_keeps.
  - apply Forall_forall. intros v Hv. unfold bfill_col in Hv.
    apply in_rev in Hv.
    destruct (ffill_from_incl _ _ _ Hv) as [K|K]; [|discriminate].
    apply in_rev in K. unfold ffill_col in K.
    destruct (ffill_from_incl _ _ _ K) as [K'|K']; [exact K' | discriminate].
Qed.

(** X2. A gap that follows an observation is filled with that observation,
    the latest one before it, whatever comes after: the forward fill goes
    first. *)
Theorem gap_takes_previous (l g r : series) (x : cell) (k : nat) :
  present x ->
  Forall missing g ->
  k <= List.length g ->
  nth_error (bfill_col (ffill_col (l ++ x :: g ++ r))) (List.length l + k)
  = Some x.
Proof.
  intros Hx Hg Hk. apply bfill_col_keeps; [|exact Hx].
  unfold ffill_col. rewrite ffill_from_app.
  rewrite nth_error_app2 by (rewrite ffill_from_length; lia).
  rewrite ffill_from_length.
  replace (List.length l + k - List.length l) with k by lia.
  simpl. pose proof Hx as Hx'. unfold present in Hx'. rewrite Hx'.
  rewrite ffill_from_app, (ffill_from_missing g x Hg).
  change (x :: repeat x (List.length g) ++ ?t)
    with ((x :: repeat x (List.length g)) ++ t).
  rewrite nth_error_app1 by (simpl; rewrite repeat_length; lia).
  change (x :: repeat x (List.length g)) with (repeat x (S (List.length g))).
  apply nth_error_repeat. lia.
Qed.

(** X3. A leading gap is filled with the first observation of the column,
    a value from later rows, and the column is flat from its first row to
    the row before its second observation. *)
Theorem leading_gap_takes_first (g g2 r : series) (x : cell) :
  Forall missing g ->
  present x ->
  Forall missing g2 ->
  bfill_col (ffill_col (g ++ x :: g2 ++ r))
  = repeat x (List.length g + 1 + List.length g2) ++ ffill_from (Some x) r.
Proof. apply fill_col_until_second. Qed.

Lemma normalize_col_flat (x : cell) (n : nat) (rest : series) :
  F64.is_finite_nonzero x = true ->
  normalize_col (repeat x (S n) ++ rest)
  = repeat F64.hundred (S n)
      ++ map (fun p => F64.mul (F64.div p x) F64.hundred) rest.
Proof.
  intros Hx. unfold normalize_col.
  change (repeat x (S n) ++ rest) with (x :: (repeat x n ++ rest)).
  cbv iota. change (x :: (repeat x n ++ rest)) with (repeat x (S n) ++ rest).
  rewrite map_app. f_equal.
  generalize (S n). intros m. induction m as [|m IH]; simpl; [reflexivity|].
  now rewrite IH, F64Facts.div_self, F64Facts.one_times_hundred.
Qed.

(** X4. A column that starts on a gap is based on its first observation:
    when that is a finite non-zero price, the normalized series of the
    cleaned column is exactly 100 on every row before the second
    observation, and from there the prices over the first observation,
    times 100. *)
Theorem late_start_is_flat (g g2 r : series) (x : cell) :
  Forall missing g ->
  F64.is_finite_nonzero x = true ->
  Forall missing g2 ->
  normalize_col (bfill_col (ffill_col (g ++ x :: g2 ++ r)))
  = repeat F64.hundred (List.length g + 1 + List.length g2)
      ++ map (fun p => F64.mul (F64.div p x) F64.hundred)
             (ffill_from (Some x) r).
Proof.
  intros Hg Hx Hg2.
  assert (Hp : present x) by (now destruct x).
  rewrite (fill_col_until_second g g2 x r Hg Hp Hg2).
  replace (List.length g + 1 + List.length g2)
    with (S (List.length g + List.length g2)) by lia.
  now apply normalize_col_flat.
Qed.

(** ** Cleaning twice *)

Lemma present_not_all_missing (c : series) :
  c <> [] -> Forall present c -> all_missing c = false.
Proof.
  intros Hne H. destruct H as [|x r Hx _]; [congruence|].
  simpl. unfold present in Hx. now rewrite Hx.
Qed.

Lemma clean_cols_nonempty {L} (selected : frame L) :
  Forall (fun c => snd c <> []) (cols (clean selected)).
Proof.
  rewrite clean_cols. apply Forall_forall. intros [l c] Hin.
  apply in_map_iff in Hin. destruct Hin as [[l0 c0] [E Hin]].
  apply filter_In in Hin. destruct Hin as [_ Hkeep].
  inversion E; subst. simpl in *.
  intros Hnil. apply (f_equal (@List.length cell)) in Hnil.
  rewrite fill_col_length in Hnil.
  destruct c0; [discriminate Hkeep | discriminate Hnil].
Qed.

Lemma clean_cols_fixed {L} (cs : list (L * series)) :
  Forall (fun c => Forall present (snd c)) cs ->
  Forall (fun c => snd c <> []) cs ->
  map (fun c => (fst c, bfill_col (ffill_col (snd c))))
      (filter (fun c => negb (all_missing (snd c))) cs)
  = cs.
Proof.
  induction cs as [|[l c] r IH]; intros Hp Hn; simpl; [reflexivity|].
  inversion Hp as [|? ? Hc Hpr]; subst.
  inversion Hn as [|? ? Hne Hnr]; subst. simpl in *.
  rewrite (present_not_all_missing c Hne Hc). simpl. f_equal.
  - unfold ffill_col. rewrite (ffill_from_present c None Hc).
    now rewrite (bfill_col_present c Hc).
  - now apply IH.
Qed.

(** X5. Cleaning is idempotent: a cleaned table is left as it is by
    [dropna(axis=1, how='all')], [ffill] and [bfill]. *)
Theorem clean_idempotent {L} (selected : frame L) :
  clean (clean selected) = clean selected.
Proof.
  change (clean (clean selected))
    with (mkFrame (nrows selected) (cols (clean (clean selected)))).
  change (clean selected)
    with (mkFrame (nrows selected) (cols (clean selected))) at 2.
  f_equal. rewrite (clean_cols (clean selected)).
  apply clean_cols_fixed.
  - apply clean_cols_present.
  - apply clean_cols_nonempty.
Qed.

(** ** The valid candidates *)

Lemma mem_In (t : string) (l : list string) : mem t l = true <-> In t l.
Proof.
  unfold mem. rewrite existsb_exists. split.
  - intros [u [Hu E]]. apply String.eqb_eq in E. now subst.
  - intros H. exists t. split; [exact H | apply String.eqb_refl].
Qed.

Lemma cross_section_In (target : string) (df : frame (string * string))
    (t : string) (c : series) :
  In (t, c) (cols (cross_section target df))
  <-> In ((target, t), c) (cols df).
Proof.
  unfold cross_section. simpl. rewrite in_flat_map. split.
  - intros [[[f s] c0] [Hin H]]. simpl in H.
    destruct (String.eqb f target) eqn:E; [|contradiction].
    apply String.eqb_eq in E. subst f.
    destruct H as [H|[]]. inversion H; subst. exact Hin.
  - intros Hin. exists ((target, t), c). split; [exact Hin|].
    simpl. rewrite String.eqb_refl. now left.
Qed.

(** X6. The valid candidates are the candidates with data: a symbol of the
    candidate list is kept, in its place in the list, exactly when the
    fetched table holds under the selected price field a column of that
    symbol with at least one observation. *)
Theorem valid_tickers_have_data (self : Backtester) (target : string)
    (df : frame (string * string)) (t : string) :
  In t (valid_tickers self (clean (cross_section target df)))
  <-> In t (tickers self)
      /\ exists c, In ((target, t), c) (cols df) /\ all_missing c = false.
Proof.
  unfold valid_tickers. rewrite filter_In, mem_In, clean_columns.
  rewrite in_map_iff. split.
  - intros [Ht [[l c] [E Hin]]]. simpl in E. subst l.
    apply filter_In in Hin. destruct Hin as [Hin Hk]. simpl in Hk.
    split; [exact Ht|]. exists c. split.
    + now apply cross_section_In.
    + now apply negb_true_iff.
  - intros [Ht [c [Hin Hk]]]. split; [exact Ht|].
    exists (t, c). split; [reflexivity|]. apply filter_In. split.
    + now apply cross_section_In.
    + simpl. now rewrite Hk.
Qed.

(** ** Every run *)

Lemma run_backtest_shape (w : world) (self : Backtester) :
  run_shape w self (run_backtest w self).
Proof.
  destruct (tickers self) as [|t0 ts] eqn:Et.
  { rewrite (run_no_tickers w self Et). now apply shape_no_tickers. }
  assert (Ht : tickers self <> []) by (rewrite Et; discriminate).
  clear Et t0 ts.
  destruct (fetched w self) as [|data_raw] eqn:Hf.
  { rewrite (run_fetch_raises w self Ht Hf). now apply shape_fetch_raises. }
  destruct (raw_empty data_raw) eqn:He.
  { rewrite (run_fetch_empty w self Ht data_raw Hf He).
    now apply shape_fetch_empty with (data_raw := data_raw). }
  destruct (find_target_col data_raw) as [notes tc] eqn:Htc.
  destruct tc as [target|].
  2:{ rewrite (run_no_price_field w self Ht data_raw Hf He notes Htc).
      replace notes with (fst (find_target_col data_raw))
        by (now rewrite Htc).
      apply shape_no_price_field; try assumption. now rewrite Htc. }
  destruct (getitem data_raw target) as [selected|s] eqn:Hs.
  2:{ rewrite (run_series w self Ht data_raw Hf He notes target Htc s Hs).
      replace notes with (fst (find_target_col data_raw))
        by (now rewrite Htc).
      apply shape_series with (target := target) (s := s); try assumption.
      now rewrite Htc. }
  destruct (valid_tickers self (clean selected)) as [|v vs] eqn:Hv.
  { rewrite (run_no_valid_tickers w self Ht data_raw Hf He notes target Htc
               selected Hs _
               (getitem_nonempty data_raw target selected He Hs) Hv).
    replace notes with (fst (find_target_col data_raw))
      by (now rewrite Htc).
    apply shape_no_valid with (target := target) (selected := selected);
      try assumption. now rewrite Htc. }
  assert (Hv' : valid_tickers self (clean selected) <> [])
    by (rewrite Hv; discriminate).
  rewrite (simulated_run w self data_raw notes target selected
             Ht Hf He Htc Hs Hv').
  replace notes with (fst (find_target_col data_raw)) by (now rewrite Htc).
  apply shape_simulated with (data_raw := data_raw) (target := target);
    try assumption. now rewrite Htc.
Qed.

Section Requests.

Lemma downloads_app (t u : trace) :
  downloads (t ++ u) = downloads t ++ downloads u.
Proof. apply flat_map_app. Qed.

Lemma downloads_notes (data_raw : raw_table) :
  downloads (fst (find_target_col data_raw)) = [].
Proof.
  rewrite find_target_col_fields.
  destruct (mem "Adj Close" (fields data_raw)); [reflexivity|].
  destruct (mem "Close" (fields data_raw)); reflexivity.
Qed.

Lemma downloads_warning (normalized_data : frame string) :
  downloads (benchmark_warning normalized_data) = [].
Proof.
  unfold benchmark_warning.
  now destruct (lookup benchmark (cols normalized_data)).
Qed.

Lemma downloads_report (sd ed : string) (s : series) (b : option series) :
  downloads (fst (report sd ed s b)) = [].
Proof.
  unfold report. destruct (iloc_last s) as [last|]; [|reflexivity].
  destruct b as [c|]; [|reflexivity].
  destruct (iloc_last c) as [lb|]; reflexivity.
Qed.

End Requests.

(** X7. A run asks the provider at most once, never again after a failure:
    not at all when there is no ticker, and otherwise exactly once, for the
    candidates followed by ['^NSEI'], whether or not the candidates already
    name it. *)
Theorem one_download (w : world) (self : Backtester) :
  downloads (fst (run_backtest w self))
  = if is_nil (tickers self) then [] else [tickers self ++ [benchmark]].
Proof.
  destruct (run_backtest_shape w self)
    as [Ht | Ht _ | raw Ht _ _ | raw Ht _ _ _ | raw target s Ht _ _ _ _
        | raw target selected Ht _ _ _ _ _
        | raw target selected Ht _ _ _ _ _];
    try (rewrite Ht; reflexivity);
    rewrite (is_nil_false _ Ht); cbn [fst];
    rewrite ?downloads_app, ?downloads_notes, ?downloads_warning,
            ?downloads_report;
    reflexivity.
Qed.

Section Charts.

Lemma charts_app (t u : trace) : charts (t ++ u) = charts t ++ charts u.
Proof. apply filter_app. Qed.

Lemma charts_notes (data_raw : raw_table) :
  charts (fst (find_target_col data_raw)) = [].
Proof.
  rewrite find_target_col_fields.
  destruct (mem "Adj Close" (fields data_raw)); [reflexivity|].
  destruct (mem "Close" (fields data_raw)); reflexivity.
Qed.

Lemma charts_warning (normalized_data : frame string) :
  charts (benchmark_warning normalized_data) = [].
Proof.
  unfold benchmark_warning.
  now destruct (lookup benchmark (cols normalized_data)).
Qed.

Lemma report_chart (sd ed : string) (s : series) (b : option series) :
  charts (fst (report sd ed s b)) = []
  \/ (snd (report sd ed s b) = Returned
      /\ exists pre r,
           fst (report sd ed s b)
           = pre ++ [SaveFig output_file; Print (ChartSaved output_file)]
           /\ charts pre = []
           /\ In (Print (StrategyReturn r)) pre
           /\ In (PlotLine StrategyLine s) pre).
Proof.
  unfold report. destruct (iloc_last s) as [last|]; [|now left].
  destruct b as [c|].
  - destruct (iloc_last c) as [lb|]; [|now left].
    right. split; [reflexivity|].
    exists ([Print ResultsHeader; Print (Timeframe sd ed);
             Print (StrategyReturn (F64.sub last F64.hundred));
             Print (BenchmarkReturn (F64.sub lb F64.hundred));
             Print (verdict (F64.sub last F64.hundred)
                            (F64.sub lb F64.hundred));
             PlotLine StrategyLine s; PlotLine BenchmarkLine c]),
           (F64.sub last F64.hundred).
    split; [reflexivity|]. split.
    + unfold verdict.
      now destruct (F64.gtb (F64.sub last F64.hundred)
                            (F64.sub lb F64.hundred)).
    + split; simpl; tauto.
  - right. split; [reflexivity|].
    exists ([Print ResultsHeader; Print (Timeframe sd ed);
             Print (StrategyReturn (F64.sub last F64.hundred));
             PlotLine StrategyLine s]),
           (F64.sub last F64.hundred).
    split; [reflexivity|]. split; [reflexivity|]. split; simpl; tauto.
Qed.

Lemma report_outcome (sd ed : string) (s : series) (b : option series) :
  snd (report sd ed s b) = Returned
  \/ snd (report sd ed s b) = Raised IndexError.
Proof.
  unfold report. destruct (iloc_last s) as [last|]; [|now right].
  destruct b as [c|]; [|now left].
  destruct (iloc_last c) as [lb|]; [now left | now right].
Qed.

Lemma report_returns (sd ed : string) (s : series) (b : option series)
    (last : cell) :
  iloc_last s = Some last ->
  (forall c, b = Some c -> iloc_last c <> None) ->
  snd (report sd ed s b) = Returned.
Proof.
  intros Hs Hb. unfold report. rewrite Hs.
  destruct b as [c|]; [|reflexivity].
  destruct (iloc_last c) as [lb|] eqn:E; [reflexivity|].
  exfalso. now apply (Hb c).
Qed.

End Charts.

(** X8. A run writes at most one chart, and only as the last thing before
    it returns: whenever a chart is written, it is written to
    [reports/backtest_results.png], the strategy return has been printed and
    the strategy line plotted before, only the message that the chart is
    saved follows, and the run returns; a run that ends on an exception has
    written no chart. *)
Theorem chart_only_after_results (w : world) (self : Backtester) :
  charts (fst (run_backtest w self)) = []
  \/ (snd (run_backtest w self) = Returned
      /\ exists pre r s,
           fst (run_backtest w self)
           = pre ++ [SaveFig output_file; Print (ChartSaved output_file)]
           /\ charts pre = []
           /\ In (Print (StrategyReturn r)) pre
           /\ In (PlotLine StrategyLine s) pre).
Proof.
  destruct (run_backtest_shape w self)
    as [Ht | Ht _ | raw Ht _ _ | raw Ht _ _ _ | raw target s Ht _ _ _ _
        | raw target selected Ht _ _ _ _ _
        | raw target selected Ht _ _ _ _ _];
    try (left; cbn [fst]; rewrite ?charts_app, ?charts_notes; reflexivity).
  cbn [fst snd].
  destruct (report_chart (fst (window w (years self)))
              (snd (window w (years self)))
              (strategy_series self (clean selected)
                 (map_cols normalize_col (clean selected)))
              (lookup benchmark
                 (cols (map_cols normalize_col (clean selected)))))
    as [Hnone | [Hret [pre [r [E [Hpre [Hr Hs]]]]]]].
  - left. now rewrite !charts_app, charts_notes, charts_warning, Hnone.
  - right. split; [exact Hret|].
    exists (header w self ++ fst (find_target_col raw)
              ++ benchmark_warning (map_cols normalize_col (clean selected))
              ++ pre), r,
           (strategy_series self (clean selected)
              (map_cols normalize_col (clean selected))).
    rewrite E. split; [now rewrite <- !app_assoc|]. split.
    + now rewrite !charts_app, charts_notes, charts_warning, Hpre.
    + split; apply in_or_app; right; apply in_or_app; right;
        apply in_or_app; right; assumption.
Qed.

(** X9. The selection of the candidate columns never fails: the run never
    ends on a [KeyError], because the candidates are first restricted to the
    columns of the table; and on a table whose columns all have one value
    per row it never ends on an [IndexError] either. *)
Theorem selection_never_fails (w : world) (self : Backtester) :
  snd (run_backtest w self) <> Raised KeyError
  /\ (forall data_raw,
        fetched w self = Fetched data_raw ->
        raw_rectangular data_raw ->
        snd (run_backtest w self) <> Raised IndexError).
Proof.
  destruct (run_backtest_shape w self)
    as [Ht | Ht _ | raw Ht _ _ | raw Ht _ _ _ | raw target s Ht _ _ _ _
        | raw target selected Ht _ _ _ _ _
        | raw target selected Ht Hf He Htc Hs Hv];
    try (split; [discriminate | intros; discriminate]).
  cbn [snd]. split.
  - destruct (report_outcome (fst (window w (years self)))
                (snd (window w (years self)))
                (strategy_series self (clean selected)
                   (map_cols normalize_col (clean selected)))
                (lookup benchmark
                   (cols (map_cols normalize_col (clean selected)))))
      as [E|E]; rewrite E; discriminate.
  - intros data_raw Hf' Hrect. rewrite Hf in Hf'. inversion Hf'; subst raw.
    destruct (strategy_last self data_raw target selected He Hs)
      as [n [Hn Hlast]].
    rewrite (report_returns _ _ _ _ _ Hlast); [discriminate|].
    intros c Hc. apply iloc_last_nonempty with (n := n).
    rewrite <- Hn.
    apply (rectangular_lookup (map_cols normalize_col (clean selected))
             benchmark c); [|exact Hc].
    apply normalized_rectangular, clean_rectangular.
    destruct data_raw as [df|df]; simpl in Hs; [discriminate|].
    inversion Hs; subst. now apply cross_section_rectangular.
Qed.

Section Printed.

Lemma in_header (w : world) (self : Backtester) (m : message) :
  In (Print m) (header w self) ->
  m = Banner (years self) \/ m = TestingOn (firstn 5 (tickers self)).
Proof.
  unfold header. simpl. intros [H|[H|[H|[]]]]; inversion H; auto.
Qed.

Lemma in_notes (data_raw : raw_table) (e : event) :
  In e (fst (find_target_col data_raw)) -> e = Print NoteUsingClose.
Proof.
  rewrite find_target_col_fields.
  destruct (mem "Adj Close" (fields data_raw)); [intros []|].
  destruct (mem "Close" (fields data_raw)); simpl; [|intros []].
  intros [H|[]]. now symmetry.
Qed.

Lemma in_warning (normalized_data : frame string) (e : event) :
  In e (benchmark_warning normalized_data) -> e = Print WarnBenchmarkMissing.
Proof.
  unfold benchmark_warning.
  destruct (lookup benchmark (cols normalized_data)); simpl; [intros []|].
  intros [H|[]]. now symmetry.
Qed.

Lemma in_report (sd ed : string) (s : series) (b : option series)
    (e : event) :
  In e (fst (report sd ed s b)) -> is_artifact e = true.
Proof.
  unfold report. destruct (iloc_last s) as [last|]; [|intros []].
  destruct b as [c|].
  - destruct (iloc_last c) as [lb|]; simpl; unfold verdict;
      [destruct (F64.gtb (F64.sub last F64.hundred)
                         (F64.sub lb F64.hundred))|];
      simpl; intuition (subst; reflexivity).
  - simpl. intuition (subst; reflexivity).
Qed.

End Printed.

(** X10. The handler of lines 89 to 91 is never entered: no run prints the
    normalization error.  Once [data_raw.empty] is false the table has a
    first row to divide by, and the division of floats does not raise, so a
    first price of zero goes through without a message. *)
Theorem normalization_error_is_dead (w : world) (self : Backtester) :
  ~ In (Print ErrNormalization) (fst (run_backtest w self)).
Proof.
  intros H.
  destruct (run_backtest_shape w self)
    as [Ht | Ht _ | raw Ht _ _ | raw Ht _ _ _ | raw target s Ht _ _ _ _
        | raw target selected Ht _ _ _ _ _
        | raw target selected Ht _ _ _ _ _];
    cbn [fst] in H;
    repeat (apply in_app_or in H; destruct H as [H|H]);
    try (apply in_header in H; destruct H; discriminate);
    try (apply in_notes in H; discriminate);
    try (apply in_warning in H; discriminate);
    try (apply in_report in H; discriminate);
    simpl in H; intuition discriminate.
Qed.

(** X11. On a flat table that names a price field the run selects the
    field, with the advisory when it is ['Close'], and then ends on the
    [ValueError] of [dropna(axis=1)] on a series: nothing is reported,
    plotted or saved. *)
Theorem flat_table_raises (w : world) (self : Backtester)
    (df : frame string) :
  tickers self <> [] ->
  fetched w self = Fetched (Flat df) ->
  empty df = false ->
  mem "Adj Close" (columns df) || mem "Close" (columns df) = true ->
  run_backtest w self
  = (header w self
       ++ (if mem "Adj Close" (columns df) then []
           else [Print NoteUsingClose]),
     Raised ValueError)
  /\ no_artifact (fst (run_backtest w self)).
Proof.
  intros Ht Hf He Hfield.
  assert (E : run_backtest w self
              = (header w self
                   ++ (if mem "Adj Close" (columns df) then []
                       else [Print NoteUsingClose]),
                 Raised ValueError)).
  { destruct (mem "Adj Close" (columns df)) eqn:Ha.
    - apply (run_series w self Ht (Flat df) Hf He [] "Adj Close")
        with (s := lookup "Adj Close" (cols df)); [|reflexivity].
      simpl. now rewrite Ha.
    - simpl in Hfield.
      apply (run_series w self Ht (Flat df) Hf He [Print NoteUsingClose]
               "Close")
        with (s := lookup "Close" (cols df)); [|reflexivity].
      simpl. now rewrite Ha, Hfield. }
  split; [exact E|]. rewrite E. cbn [fst].
  apply no_artifact_app; [apply header_no_artifact|].
  now destruct (mem "Adj Close" (columns df)).
Qed.

(** ** The benchmark *)

Lemma benchmark_dropped (target : string) (df : frame (string * string)) :
  (forall c, In ((target, benchmark), c) (cols df) -> all_missing c = true) ->
  lookup benchmark
    (cols (map_cols normalize_col (clean (cross_section target df))))
  = None.
Proof.
  intros H.
  destruct (lookup benchmark
              (cols (map_cols normalize_col
                       (clean (cross_section target df))))) as [b|] eqn:E;
    [|reflexivity].
  exfalso. apply lookup_mem in E.
  fold (columns (map_cols normalize_col (clean (cross_section target df))))
    in E.
  rewrite map_cols_columns, clean_columns in E. apply mem_In in E.
  apply in_map_iff in E. destruct E as [[l c] [El Hin]].
  simpl in El. subst l. apply filter_In in Hin. destruct Hin as [Hin Hk].
  apply cross_section_In in Hin. simpl in Hk.
  now rewrite (H c Hin) in Hk.
Qed.

(** X12. A benchmark without data does not stop the run: when the fetched
    table holds no observation for ['^NSEI'] under the selected field (no
    such column, or only missing values, which cleaning drops), the run
    prints the warning, then the results with the strategy return and
    neither benchmark return nor verdict, plots the strategy alone and saves
    the chart. *)
Theorem benchmark_without_data (w : world) (self : Backtester)
    (df : frame (string * string)) (notes : trace) (target : string) :
  tickers self <> [] ->
  fetched w self = Fetched (Layered df) ->
  empty df = false ->
  find_target_col (Layered df) = (notes, Some target) ->
  valid_tickers self (clean (cross_section target df)) <> [] ->
  (forall c, In ((target, benchmark), c) (cols df) -> all_missing c = true) ->
  exists last_value,
    iloc_last (strategy_series self (clean (cross_section target df))
                 (map_cols normalize_col (clean (cross_section target df))))
    = Some last_value
    /\ run_backtest w self
       = (header w self ++ notes
            ++ [Print WarnBenchmarkMissing;
                Print ResultsHeader;
                Print (Timeframe (fst (window w (years self)))
                                 (snd (window w (years self))));
                Print (StrategyReturn (F64.sub last_value F64.hundred));
                PlotLine StrategyLine
                  (strategy_series self (clean (cross_section target df))
                     (map_cols normalize_col
                        (clean (cross_section target df))));
                SaveFig output_file;
                Print (ChartSaved output_file)],
          Returned).
Proof.
  intros Ht Hf He Htc Hv Hb.
  destruct (strategy_last self (Layered df) target (cross_section target df)
              He eq_refl) as [n [_ Hlast]].
  eexists. split; [exact Hlast|].
  rewrite (simulated_run w self (Layered df) notes target
             (cross_section target df) Ht Hf He Htc eq_refl Hv).
  unfold benchmark_warning. rewrite (benchmark_dropped target df Hb).
  unfold report. rewrite Hlast. reflexivity.
Qed.

Lemma verdict_nan (strategy_return benchmark_return : cell) :
  F64.is_nan strategy_return = true \/ F64.is_nan benchmark_return = true ->
  verdict strategy_return benchmark_return = Underperformance F64.nan.
Proof.
  intros [H|H]; unfold verdict.
  - destruct strategy_return; try discriminate.
    now destruct benchmark_return.
  - destruct benchmark_return; try discriminate.
    now destruct strategy_return.
Qed.

Lemma sub_nan_l (x y : cell) :
  F64.is_nan x = true -> F64.is_nan (F64.sub x y) = true.
Proof. destruct x; try discriminate. reflexivity. Qed.

(** X13. A return that is not a number is reported as underperformance:
    when the last value of the strategy series or of the benchmark series
    is NaN, the comparison of line 122 is false and the run prints the
    underperformance line with a lag of NaN, then plots and saves as
    usual. *)
Theorem nan_return_is_underperformance (w : world) (self : Backtester)
    (data_raw : raw_table) (notes : trace) (target : string)
    (selected : frame string) (b : series) (last_benchmark : cell) :
  tickers self <> [] ->
  fetched w self = Fetched data_raw ->
  raw_empty data_raw = false ->
  find_target_col data_raw = (notes, Some target) ->
  getitem data_raw target = SelFrame selected ->
  valid_tickers self (clean selected) <> [] ->
  lookup benchmark (cols (map_cols normalize_col (clean selected))) = Some b ->
  iloc_last b = Some last_benchmark ->
  exists last_value,
    iloc_last (strategy_series self (clean selected)
                 (map_cols normalize_col (clean selected)))
    = Some last_value
    /\ (F64.is_nan last_value = true \/ F64.is_nan last_benchmark = true ->
        run_backtest w self
        = (header w self ++ notes
             ++ [Print ResultsHeader;
                 Print (Timeframe (fst (window w (years self)))
                                  (snd (window w (years self))));
                 Print (StrategyReturn (F64.sub last_value F64.hundred));
                 Print (BenchmarkReturn
                          (F64.sub last_benchmark F64.hundred));
                 Print (Underperformance F64.nan)]
             ++ plot (strategy_series self (clean selected)
                        (map_cols normalize_col (clean selected)))
                     (Some b),
           Returned)).
Proof.
  intros Ht Hf He Htc Hs Hv Hb Hlb.
  destruct (strategy_last self data_raw target selected He Hs)
    as [n [_ Hlast]].
  eexists. split; [exact Hlast|]. intros Hnan.
  rewrite (simulated_run w self data_raw notes target selected
             Ht Hf He Htc Hs Hv).
  unfold benchmark_warning. rewrite Hb.
  rewrite (report_benchmark _ _ _ _ _ _ Hlast Hlb).
  rewrite verdict_nan; [reflexivity|].
  destruct Hnan as [H|H]; [left | right]; now apply sub_nan_l.
Qed.

(** X14. The advisory tells, and only it tells, that raw closes are used:
    a run prints it exactly when it has fetched a table that is not empty,
    without ['Adj Close'] and with ['Close'] among its price fields. *)
Theorem advisory_iff_close (w : world) (self : Backtester) :
  In (Print NoteUsingClose) (fst (run_backtest w self))
  <-> exists data_raw,
        tickers self <> []
        /\ fetched w self = Fetched data_raw
        /\ raw_empty data_raw = false
        /\ snd (find_target_col data_raw) = Some "Close".
Proof.
  assert (K : forall raw,
            In (Print NoteUsingClose) (fst (find_target_col raw))
            <-> snd (find_target_col raw) = Some "Close").
  { intros raw. rewrite find_target_col_fields.
    destruct (mem "Adj Close" (fields raw)); simpl;
      [split; [intros [] | discriminate]|].
    destruct (mem "Close" (fields raw)); simpl.
    - split; [reflexivity | intros _; now left].
    - split; [intros [] | discriminate]. }
  split.
  - intros H.
    destruct (run_backtest_shape w self)
      as [Ht | Ht _ | raw Ht _ _ | raw Ht Hf He Hn
          | raw target s Ht Hf He Hn _
          | raw target selected Ht Hf He Hn _ _
          | raw target selected Ht Hf He Hn _ _];
      cbn [fst] in H;
      repeat (apply in_app_or in H; destruct H as [H|H]);
      try (apply in_header in H; destruct H; discriminate);
      try (apply in_warning in H; discriminate);
      try (apply in_report in H; discriminate);
      try (apply K in H; exists raw; now repeat split);
      simpl in H; intuition discriminate.
  - intros [raw [Ht [Hf [He Hc]]]]. apply K in Hc.
    destruct (run_backtest_shape w self)
      as [Ht' | _ Hf' | raw' _ Hf' He' | raw' _ Hf' _ _
          | raw' target s _ Hf' _ _ _
          | raw' target selected _ Hf' _ _ _ _
          | raw' target selected _ Hf' _ _ _ _];
      try contradiction; rewrite Hf in Hf'; try discriminate;
      inversion Hf'; subst raw'; try congruence;
      cbn [fst]; apply in_or_app; right;
      try (apply in_or_app; left); exact Hc.
Qed.

(** X15. The shape of the table is kept from the fetch to the plot: on a
    two-level table whose columns all have one value per row, the cleaned
    and the normalized tables have the rows of the fetched one and one value
    per row in every column, so the strategy series and the benchmark series
    have one value per fetched row. *)
Theorem series_match_rows (self : Backtester) (target : string)
    (df : frame (string * string)) :
  rectangular df ->
  rectangular (clean (cross_section target df))
  /\ rectangular (map_cols normalize_col (clean (cross_section target df)))
  /\ nrows (map_cols normalize_col (clean (cross_section target df)))
     = nrows df
  /\ List.length
       (strategy_series self (clean (cross_section target df))
          (map_cols normalize_col (clean (cross_section target df))))
     = nrows df
  /\ (forall b,
        lookup benchmark
          (cols (map_cols normalize_col (clean (cross_section target df))))
        = Some b ->
        List.length b = nrows df).
Proof.
  intros H.
  pose proof (clean_rectangular _ (cross_section_rectangular target df H))
    as Hc.
  pose proof (normalized_rectangular _ Hc) as Hn.
  split; [exact Hc|]. split; [exact Hn|]. split; [reflexivity|].
  split; [apply mean_axis1_length|].
  intros b Hb. exact (rectangular_lookup _ _ _ Hn Hb).
Qed.

(** ** Further instances *)

Lemma fill_keeps_observations_witness :
  nth_error (bfill_col (ffill_col gappy)) 1 = Some (F64.of_Z 100).
Proof.
  apply (proj1 (fill_keeps_observations gappy) 1 (F64.of_Z 100));
    reflexivity.
Defined.

Lemma gap_takes_previous_witness :
  nth_error (bfill_col (ffill_col gappy)) (List.length late_gap + 2)
  = Some (F64.of_Z 100).
Proof.
  apply (gap_takes_previous late_gap inner_gap after_gap (F64.of_Z 100) 2).
  - reflexivity.
  - repeat constructor.
  - simpl. lia.
Defined.

Lemma leading_gap_takes_first_witness :
  bfill_col (ffill_col gappy)
  = repeat (F64.of_Z 100)
           (List.length late_gap + 1 + List.length inner_gap)
      ++ ffill_from (Some (F64.of_Z 100)) after_gap.
Proof.
  apply (leading_gap_takes_first late_gap inner_gap after_gap (F64.of_Z 100)).
  - repeat constructor.
  - reflexivity.
  - repeat constructor.
Defined.

Lemma late_start_is_flat_witness :
  normalize_col (bfill_col (ffill_col gappy))
  = repeat F64.hundred (List.length late_gap + 1 + List.length inner_gap)
      ++ map (fun p => F64.mul (F64.div p (F64.of_Z 100)) F64.hundred)
             (ffill_from (Some (F64.of_Z 100)) after_gap).
Proof.
  apply (late_start_is_flat late_gap inner_gap after_gap (F64.of_Z 100)).
  - repeat constructor.
  - reflexivity.
  - repeat constructor.
Defined.

Lemma valid_tickers_have_data_witness :
  In "AAA" (valid_tickers two_self (clean (cross_section "Close" gap_table))).
Proof.
  apply (proj2 (valid_tickers_have_data two_self "Close" gap_table "AAA")).
  split.
  - simpl. left. reflexivity.
  - exists [F64.nan; F64.of_Z 100; F64.nan]. split.
    + simpl. left. reflexivity.
    + reflexivity.
Defined.

Lemma selection_never_fails_witness :
  snd (run_backtest scenario_world two_self) <> Raised IndexError.
Proof.
  apply (proj2 (selection_never_fails scenario_world two_self)
           (Layered scenario_table)).
  - reflexivity.
  - vm_compute. repeat constructor.
Defined.

Lemma flat_table_raises_witness :
  run_backtest flat_world two_self
  = (header flat_world two_self ++ [Print NoteUsingClose], Raised ValueError).
Proof.
  refine (proj1 (flat_table_raises flat_world two_self flat_frame _ _ _ _)).
  - vm_compute. discriminate.
  - reflexivity.
  - reflexivity.
  - reflexivity.
Defined.

Lemma benchmark_without_data_witness :
  exists last_value,
    iloc_last (strategy_series two_self
                 (clean (cross_section "Close" gap_table))
                 (map_cols normalize_col
                    (clean (cross_section "Close" gap_table))))
    = Some last_value.
Proof.
  destruct (benchmark_without_data gap_world two_self gap_table
              [Print NoteUsingClose] "Close") as [lv [Hl _]].
  - vm_compute. discriminate.
  - reflexivity.
  - reflexivity.
  - reflexivity.
  - vm_compute. discriminate.
  - intros c H. simpl in H.
    destruct H as [H|[H|[H|[]]]]; discriminate H.
  - exists lv. exact Hl.
Defined.

Lemma nan_return_is_underperformance_witness :
  In (Print (Underperformance F64.nan))
     (fst (run_backtest nan_world two_self)).
Proof.
  destruct (nan_return_is_underperformance nan_world two_self
              (Layered nan_table) [] "Adj Close"
              (cross_section "Adj Close" nan_table)
              (prices [100; 95]%Z) (F64.of_Z 95))
    as [lv [Hl Hrun]].
  - vm_compute. discriminate.
  - reflexivity.
  - reflexivity.
  - reflexivity.
  - reflexivity.
  - vm_compute. discriminate.
  - vm_compute. reflexivity.
  - vm_compute. reflexivity.
  - rewrite Hrun.
    + cbn [fst]. apply in_or_app. right. apply in_or_app. right.
      apply in_or_app. left. simpl. tauto.
    + left. vm_compute in Hl. inversion Hl. reflexivity.
Defined.

Lemma advisory_iff_close_witness :
  In (Print NoteUsingClose) (fst (run_backtest gap_world two_self)).
Proof.
  apply (proj2 (advisory_iff_close gap_world two_self)).
  exists (Layered gap_table).
  refine (conj _ (conj _ (conj _ _))).
  - vm_compute. discriminate.
  - reflexivity.
  - reflexivity.
  - reflexivity.
Defined.

Lemma series_match_rows_witness :
  List.length
    (strategy_series two_self (clean (cross_section "Adj Close" scenario_table))
       (map_cols normalize_col
          (clean (cross_section "Adj Close" scenario_table))))
  = nrows scenario_table.
Proof.
  refine (proj1 (proj2 (proj2 (proj2
            (series_match_rows two_self "Adj Close" scenario_table _))))).
  vm_compute. repeat constructor.
Defined.

(** ** The order of the columns *)

Section ColumnOrder.

Lemma lookup_In_iff (cs : list (string * series)) (t : string) (c : series) :
  NoDup (map fst cs) -> (lookup t cs = Some c <-> In (t, c) cs).
Proof.
  intros Hnd. split; [apply lookup_In|].
  induction cs as [|[l c0] r IH]; simpl; [contradiction|].
  inversion Hnd as [|? ? Hl Hr]; subst.
  destruct (String.eqb t l) eqn:E.
  - apply String.eqb_eq in E. subst l. intros [H|H].
    + now inversion H.
    + exfalso. apply Hl. apply in_map_iff. now exists (t, c).
  - intros [H|H].
    + inversion H; subst. now rewrite String.eqb_refl in E.
    + now apply IH.
Qed.

Lemma lookup_ext (cs cs' : list (string * series)) (t : string) :
  NoDup (map fst cs) -> NoDup (map fst cs') ->
  (forall x, In x cs <-> In x cs') ->
  lookup t cs = lookup t cs'.
Proof.
  intros Hn Hn' H.
  destruct (lookup t cs) as [c|] eqn:E.
  - apply (lookup_In_iff cs t c Hn) in E. apply H in E.
    symmetry. now apply lookup_In_iff.
  - destruct (lookup t cs') as [c'|] eqn:E'; [|reflexivity].
    apply (lookup_In_iff cs' t c' Hn') in E'. apply H in E'.
    apply (lookup_In_iff cs t c' Hn) in E'. congruence.
Qed.

Lemma normalized_In (target : string) (df : frame (string * string))
    (t : string) (c' : series) :
  In (t, c')
     (cols (map_cols normalize_col (clean (cross_section target df))))
  <-> exists c, In ((target, t), c) (cols df)
                /\ all_missing c = false
                /\ c' = normalize_col (bfill_col (ffill_col c)).
Proof.
  unfold map_cols. cbn [cols]. rewrite clean_cols, map_map. cbn [fst snd].
  rewrite in_map_iff. split.
  - intros [[l c] [E Hin]]. simpl in E. inversion E; subst.
    apply filter_In in Hin. destruct Hin as [Hin Hk]. simpl in Hk.
    exists c. split; [now apply cross_section_In|].
    split; [now apply negb_true_iff | reflexivity].
  - intros [c [Hin [Hk ->]]]. exists (t, c). split; [reflexivity|].
    apply filter_In. split; [now apply cross_section_In|].
    simpl. now rewrite Hk.
Qed.

Lemma cross_section_NoDup (target : string) (df : frame (string * string)) :
  NoDup (columns df) -> NoDup (columns (cross_section target df)).
Proof.
  unfold columns, cross_section. simpl. intros H.
  induction (cols df) as [|[[f s] c] r IH]; simpl; [constructor|].
  simpl in H. inversion H as [|? ? Hl Hr]; subst.
  destruct (String.eqb f target) eqn:E; simpl; [|now apply IH].
  apply String.eqb_eq in E. subst f. constructor; [|now apply IH].
  intros Hin. apply Hl. apply in_map_iff in Hin.
  destruct Hin as [[s' c'] [Es Hin]]. simpl in Es. subst s'.
  apply in_flat_map in Hin. destruct Hin as [[[f0 s0] c0] [Hin0 H0]].
  simpl in H0. destruct (String.eqb f0 target) eqn:E0; [|contradiction].
  apply String.eqb_eq in E0. subst f0. destruct H0 as [H0|[]].
  inversion H0; subst. apply in_map_iff. now exists ((target, s), c').
Qed.

Lemma filter_NoDup_labels {L} (p : L * series -> bool)
    (cs : list (L * series)) :
  NoDup (map fst cs) -> NoDup (map fst (filter p cs)).
Proof.
  induction cs as [|c r IH]; simpl; intros H; [constructor|].
  inversion H as [|? ? Hl Hr]; subst.
  destruct (p c); simpl; [|now apply IH].
  constructor; [|now apply IH].
  intros Hin. apply Hl. apply in_map_iff in Hin.
  destruct Hin as [x [Ex Hx]]. apply filter_In in Hx.
  apply in_map_iff. exists x. tauto.
Qed.

Lemma normalized_NoDup (target : string) (df : frame (string * string)) :
  NoDup (columns df) ->
  NoDup (map fst
           (cols (map_cols normalize_col (clean (cross_section target df))))).
Proof.
  intros H.
  fold (columns (map_cols normalize_col (clean (cross_section target df)))).
  rewrite map_cols_columns, clean_columns.
  apply filter_NoDup_labels. now apply cross_section_NoDup.
Qed.

Variable df df' : frame (string * string).
Hypothesis Hrows : nrows df = nrows df'.
Hypothesis Hdistinct : NoDup (columns df).
Hypothesis Hperm : Permutation (cols df) (cols df').

Lemma permuted_In (x : (string * string) * series) :
  In x (cols df) <-> In x (cols df').
Proof.
  split; apply Permutation_in; [exact Hperm | now apply Permutation_sym].
Qed.

Lemma permuted_distinct : NoDup (columns df').
Proof.
  apply (Permutation_NoDup (l := columns df)); [|exact Hdistinct].
  unfold columns. now apply Permutation_map.
Qed.

Lemma permuted_empty : empty df = empty df'.
Proof.
  unfold empty. rewrite Hrows. f_equal.
  destruct (cols df) as [|c r] eqn:E.
  - now rewrite (Permutation_nil Hperm).
  - destruct (cols df') as [|c' r'] eqn:E'; [|reflexivity].
    apply Permutation_sym in Hperm. now apply Permutation_nil in Hperm.
Qed.

Lemma permuted_field (f : string) :
  mem f (map fst (columns df)) = mem f (map fst (columns df')).
Proof.
  assert (K : forall d d' : frame (string * string),
            (forall x, In x (cols d) -> In x (cols d')) ->
            mem f (map fst (columns d)) = true ->
            mem f (map fst (columns d')) = true).
  { intros d d' H Hm. apply mem_In. apply mem_In in Hm.
    unfold columns in *. rewrite map_map in *.
    apply in_map_iff in Hm. destruct Hm as [x [Ex Hx]].
    apply in_map_iff. exists x. split; [exact Ex | now apply H]. }
  destruct (mem f (map fst (columns df))) eqn:E.
  - symmetry. apply (K df df'); [|exact E]. intros x. apply permuted_In.
  - destruct (mem f (map fst (columns df'))) eqn:E'; [|reflexivity].
    rewrite (K df' df) in E; [discriminate | | exact E'].
    intros x. apply permuted_In.
Qed.

Lemma permuted_target : find_target_col (Layered df) = find_target_col (Layered df').
Proof. simpl. now rewrite !permuted_field. Qed.

Lemma permuted_lookup (target t : string) :
  lookup t (cols (map_cols normalize_col (clean (cross_section target df))))
  = lookup t
      (cols (map_cols normalize_col (clean (cross_section target df')))).
Proof.
  apply lookup_ext.
  - now apply normalized_NoDup.
  - apply normalized_NoDup. apply permuted_distinct.
  - intros [l c]. rewrite !normalized_In. split;
      intros [c0 [Hin H]]; exists c0; (split; [|exact H]);
      now apply permuted_In.
Qed.

Lemma permuted_valid (self : Backtester) (target : string) :
  valid_tickers self (clean (cross_section target df))
  = valid_tickers self (clean (cross_section target df')).
Proof.
  unfold valid_tickers. apply filter_ext. intros t.
  assert (K : forall d d' : frame (string * string),
            (forall x, In x (cols d) -> In x (cols d')) ->
            mem t (columns (clean (cross_section target d))) = true ->
            mem t (columns (clean (cross_section target d'))) = true).
  { intros d d' H Hm. apply mem_In. apply mem_In in Hm.
    rewrite clean_columns in *. apply in_map_iff in Hm.
    destruct Hm as [[l c] [El Hin]]. simpl in El. subst l.
    apply filter_In in Hin. destruct Hin as [Hin Hk].
    apply cross_section_In in Hin. apply in_map_iff. exists (t, c).
    split; [reflexivity|]. apply filter_In. split; [|exact Hk].
    apply cross_section_In. now apply H. }
  destruct (mem t (columns (clean (cross_section target df)))) eqn:E.
  - symmetry. apply (K df df'); [|exact E]. intros x. apply permuted_In.
  - destruct (mem t (columns (clean (cross_section target df')))) eqn:E';
      [|reflexivity].
    rewrite (K df' df) in E; [discriminate | | exact E'].
    intros x. apply permuted_In.
Qed.

Lemma permuted_strategy (self : Backtester) (target : string) :
  strategy_series self (clean (cross_section target df))
    (map_cols normalize_col (clean (cross_section target df)))
  = strategy_series self (clean (cross_section target df'))
      (map_cols normalize_col (clean (cross_section target df'))).
Proof.
  unfold strategy_series. rewrite (permuted_valid self target).
  change (nrows (map_cols normalize_col (clean (cross_section target df))))
    with (nrows df).
  change (nrows (map_cols normalize_col (clean (cross_section target df'))))
    with (nrows df').
  rewrite Hrows. f_equal. apply map_ext. intros t. unfold column_of.
  now rewrite (permuted_lookup target t).
Qed.

End ColumnOrder.

(** X16. The order of the columns in the provider's answer does not
    matter: two runs that differ only in the order of the columns of the
    two-level table they fetch, its column labels being distinct, print,
    request and plot the same and end the same way. *)
Theorem column_order_is_irrelevant (w w' : world) (self : Backtester)
    (df df' : frame (string * string)) :
  window w (years self) = window w' (years self) ->
  fetched w self = Fetched (Layered df) ->
  fetched w' self = Fetched (Layered df') ->
  nrows df = nrows df' ->
  NoDup (columns df) ->
  Permutation (cols df) (cols df') ->
  run_backtest w self = run_backtest w' self.
Proof.
  intros Hw Hf Hf' Hrows Hnd Hperm.
  assert (Hh : header w self = header w' self)
    by (unfold header; now rewrite Hw).
  destruct (tickers self) as [|t0 ts] eqn:Et.
  { now rewrite !run_no_tickers. }
  assert (Ht : tickers self <> []) by (rewrite Et; discriminate).
  clear Et t0 ts.
  pose proof (permuted_empty df df' Hrows Hperm) as Hempty.
  destruct (empty df) eqn:He.
  { rewrite (run_fetch_empty w self Ht (Layered df) Hf He).
    rewrite (run_fetch_empty w' self Ht (Layered df') Hf');
      [now rewrite Hh | now symmetry]. }
  assert (He' : raw_empty (Layered df') = false) by (now symmetry).
  pose proof (permuted_target df df' Hperm) as Htarget.
  destruct (find_target_col (Layered df)) as [notes tc] eqn:Htc.
  symmetry in Htarget.
  destruct tc as [target|].
  2:{ rewrite (run_no_price_field w self Ht (Layered df) Hf He notes Htc).
      rewrite (run_no_price_field w' self Ht (Layered df') Hf' He' notes
                 Htarget).
      now rewrite Hh. }
  pose proof (permuted_valid df df' Hperm self target) as Hvalid.
  destruct (valid_tickers self (clean (cross_section target df)))
    as [|v vs] eqn:Hv.
  { rewrite (run_no_valid_tickers w self Ht (Layered df) Hf He notes target
               Htc (cross_section target df) eq_refl _
               (getitem_nonempty (Layered df) target _ He eq_refl) Hv).
    rewrite (run_no_valid_tickers w' self Ht (Layered df') Hf' He' notes
               target Htarget (cross_section target df') eq_refl _
               (getitem_nonempty (Layered df') target _ He' eq_refl));
      [now rewrite Hh | now symmetry]. }
  assert (Hv1 : valid_tickers self (clean (cross_section target df)) <> [])
    by (rewrite Hv; discriminate).
  assert (Hv2 : valid_tickers self (clean (cross_section target df')) <> [])
    by (rewrite <- Hvalid; discriminate).
  rewrite (simulated_run w self (Layered df) notes target
             (cross_section target df) Ht Hf He Htc eq_refl Hv1).
  rewrite (simulated_run w' self (Layered df') notes target
             (cross_section target df') Ht Hf' He' Htarget eq_refl Hv2).
  unfold benchmark_warning.
  rewrite <- (permuted_strategy df df' Hrows Hnd Hperm self target).
  rewrite <- (permuted_lookup df df' Hnd Hperm target benchmark).
  now rewrite Hh, Hw.
Qed.

Lemma column_order_is_irrelevant_witness :
  run_backtest scenario_world two_self = run_backtest shuffled_world two_self.
Proof.
  apply (column_order_is_irrelevant scenario_world shuffled_world two_self
           scenario_table shuffled_table).
  - reflexivity.
  - reflexivity.
  - reflexivity.
  - reflexivity.
  - vm_compute. repeat constructor; simpl; intuition discriminate.
  - unfold scenario_table, shuffled_table. cbn [cols].
    eapply perm_trans; [apply perm_swap|].
    eapply perm_trans; [apply perm_skip; apply perm_swap|].
    apply perm_swap.
Defined.
